(** * The Athena query client of insights_mcp (src/insights_mcp/athena.py)

    A shallow embedding of [AthenaClient] and the properties its
    specification states about it.

    - Python [str] values are Rocq strings; a character is a code point in
      0..255, classified the way CPython classifies it ([str.isspace],
      [str.isalnum], case-insensitive matching of ASCII letters).
    - Python [int] values are [Z]; clock readings and durations are [Z]
      counts of a fixed tick (the source holds them in floats; only their
      order and differences matter to the control flow).
    - A [dict[str, Any]] row is an association list kept in insertion
      order, updated the way Python updates a dict.
    - The remote service and the clock are a script: for each operation the
      list of replies it will give, consumed in call order, next to a log of
      the calls issued.  Quantifying over scripts quantifies over every
      behaviour the collaborators can show to this sequential client. *)

From Stdlib Require Import ZArith String Ascii List DecimalString Lia Bool.
Import ListNotations.

Local Open Scope string_scope.
Local Open Scope list_scope.
Local Open Scope Z_scope.

(** ** Python string operations *)

Module PyStr.

Definition code (c : ascii) : N := N_of_ascii c.

Definition in_range (lo hi : N) (c : ascii) : bool :=
  ((lo <=? code c) && (code c <=? hi))%N.

Definition is_code (n : N) (c : ascii) : bool := (code c =? n)%N.

(** [Py_UNICODE_ISSPACE]: what [str.strip()] removes and [\s] matches. *)
Definition isspace (c : ascii) : bool :=
  in_range 9 13 c || in_range 28 32 c || is_code 133 c || is_code 160 c.

(** [Py_UNICODE_ISALNUM] on code points below 256. *)
Definition isalnum (c : ascii) : bool :=
  in_range 48 57 c || in_range 65 90 c || in_range 97 122 c
  || is_code 170 c || in_range 178 179 c || is_code 181 c
  || in_range 185 186 c || in_range 188 190 c
  || in_range 192 214 c || in_range 216 246 c || in_range 248 255 c.

(** The class [\w] of a str pattern. *)
Definition isword (c : ascii) : bool := isalnum c || is_code 95 c.

Definition upper (c : ascii) : ascii :=
  if in_range 97 122 c then ascii_of_N (code c - 32) else c.

Definition tab : ascii := "009"%char.
Definition newline : ascii := "010"%char.
Definition nl : string := String newline EmptyString.

Fixpoint lstrip_by (p : ascii -> bool) (s : string) : string :=
  match s with
  | EmptyString => EmptyString
  | String c s' => if p c then lstrip_by p s' else s
  end.

Fixpoint rstrip_by (p : ascii -> bool) (s : string) : string :=
  match s with
  | EmptyString => EmptyString
  | String c s' =>
      match rstrip_by p s' with
      | EmptyString => if p c then EmptyString else String c EmptyString
      | r => String c r
      end
  end.

(** [s.strip()], [s.rstrip()] and [s.rstrip(chars)] for a one-character
    [chars]. *)
Definition strip (s : string) : string := rstrip_by isspace (lstrip_by isspace s).
Definition rstrip (s : string) : string := rstrip_by isspace s.
Definition rstrip_char (ch : ascii) (s : string) : string := rstrip_by (Ascii.eqb ch) s.

(** [ch in s] for a one-character [ch]. *)
Fixpoint contains (ch : ascii) (s : string) : bool :=
  match s with
  | EmptyString => false
  | String c s' => Ascii.eqb c ch || contains ch s'
  end.

(** [s.split(sep)] for a one-character separator. *)
Fixpoint split (sep : ascii) (s : string) : list string :=
  match s with
  | EmptyString => [EmptyString]
  | String c s' =>
      if Ascii.eqb c sep then EmptyString :: split sep s'
      else match split sep s' with
           | [] => [String c EmptyString]
           | part :: parts => String c part :: parts
           end
  end.

(** [sep.join(parts)]. *)
Definition join (sep : string) (parts : list string) : string :=
  String.concat sep parts.

(** [str(n)] and [f"{n}"] for an int. *)
Definition str_of_int (n : Z) : string := NilZero.string_of_int (Z.to_int n).

(** Truthiness of a str. *)
Definition truthy (s : string) : bool :=
  match s with EmptyString => false | _ => true end.

(** A literal of the pattern matched at the head of [s] under
    [re.IGNORECASE]; the remainder of [s] when it matches. *)
Fixpoint match_literal_ic (lit s : string) : option string :=
  match lit, s with
  | EmptyString, _ => Some s
  | String l lit', String c s' =>
      if Ascii.eqb (upper c) (upper l) then match_literal_ic lit' s' else None
  | String _ _, EmptyString => None
  end.

(** [\b] right after a matched word character: the end of the string or
    a character outside [\w]. *)
Definition word_ends (rest : string) : bool :=
  match rest with
  | EmptyString => true
  | String c _ => negb (isword c)
  end.

End PyStr.

(** ** Statement classification and wrapping *)

Definition non_wrappable_keywords : list string :=
  ["SHOW"; "DESCRIBE"; "EXPLAIN"; "MSCK"; "USE"; "SET"; "CREATE"; "DROP";
   "ALTER"; "INSERT"; "UPDATE"; "DELETE"]%string.

(** The pattern after [^\s*]: one of the alternatives, then [\b]. *)
Definition keyword_then_boundary (r : string) : bool :=
  existsb
    (fun kw =>
       match PyStr.match_literal_ic kw r with
       | Some rest => PyStr.word_ends rest
       | None => false
       end)
    non_wrappable_keywords.

(** [_NON_WRAPPABLE_PREFIX.search(q)] is not None.  The pattern is anchored
    by [^], so a search is a match at position 0; every alternative starts
    with a letter, so [\s*] has to take the whole run of leading
    whitespace. *)
Definition _NON_WRAPPABLE_PREFIX_search (q : string) : bool :=
  keyword_then_boundary (PyStr.lstrip_by PyStr.isspace q).

Definition _strip_trailing_semicolon (query : string) : string :=
  PyStr.strip (PyStr.rstrip_char ";" (PyStr.strip query)).

Definition _maybe_wrap_with_limit (query : string) (limit : Z) : string :=
  let q := _strip_trailing_semicolon query in
  if _NON_WRAPPABLE_PREFIX_search q then q
  else ("SELECT * FROM (" ++ PyStr.nl ++ q ++ PyStr.nl ++ ") AS _q" ++ PyStr.nl
        ++ "LIMIT " ++ PyStr.str_of_int limit)%string.

(** ** Data model *)

(** The exceptions the client can see: its own, the IndexError of list
    indexing, and whatever the remote client raises. *)
Inductive exn : Type :=
| TimeoutError (query_execution_id : string) (timeout : Z)
| RuntimeError (msg : string)
| IndexError
| ServiceError (detail : string).

(** A cell value of a row record: a str or None. *)
Definition pyvalue : Type := option string.

(** [str(v)]. *)
Definition py_str (v : pyvalue) : string :=
  match v with
  | Some s => s
  | None => "None"%string
  end.

(** [v or ""]. *)
Definition or_empty (v : pyvalue) : string :=
  match v with
  | Some s => s
  | None => EmptyString
  end.

(** A row record, [dict[str, Any]]: keys in insertion order. *)
Definition dict : Type := list (string * pyvalue).

Module Dict.

Fixpoint get (d : dict) (k : string) : option pyvalue :=
  match d with
  | [] => None
  | (k', v) :: d' => if String.eqb k' k then Some v else get d' k
  end.

(** [d[k] = v]: an existing key keeps its place, a new key goes last. *)
Fixpoint set (d : dict) (k : string) (v : pyvalue) : dict :=
  match d with
  | [] => [(k, v)]
  | (k', v') :: d' =>
      if String.eqb k' k then (k', v) :: d' else (k', v') :: set d' k v
  end.

Definition keys (d : dict) : list string := map fst d.
Definition values (d : dict) : list pyvalue := map snd d.

Definition mem (d : dict) (k : string) : bool :=
  match get d k with Some _ => true | None => false end.

(** [d.get(k)], None when the key is missing. *)
Definition get_or_none (d : dict) (k : string) : pyvalue :=
  match get d k with Some v => v | None => None end.

End Dict.

(** The statistics bag of an execution, opaque to the client. *)
Definition Statistics : Type := list (string * Z).

Record QueryResult : Type := {
  columns : list string;
  rows : list dict;
  query_execution_id : string;
  state : string;
  statistics : option Statistics
}.

Record AthenaClient : Type := {
  workgroup : string;
  database : string;
  region : string;
  max_results : Z;
  poll_interval : Z;
  timeout : Z
}.

(** *** Replies of the remote service *)

(** [response["QueryExecution"]] of get_query_execution: the state, the
    optional reason under ["Status"], the optional ["Statistics"]. *)
Record QueryExecution : Type := {
  State : string;
  StateChangeReason : option string;
  ExecStatistics : option Statistics
}.

Record ColumnInfo : Type := { Label : string; Name : string }.

Record Datum : Type := { VarCharValue : option string }.

Record Row : Type := { Data : option (list Datum) }.

(** A reply of get_query_results. *)
Record ResultsPage : Type := {
  ColumnInfos : list ColumnInfo;
  Rows : list Row;
  NextToken : option string
}.

(** The keyword arguments of a get_query_results call. *)
Record ResultsRequest : Type := {
  kw_QueryExecutionId : string;
  kw_MaxResults : Z;
  kw_NextToken : option string
}.

(** ** The client's environment *)

Inductive Call : Type :=
| Call_time
| Call_sleep (seconds : Z)
| Call_start_query_execution (QueryString Database WorkGroup : string)
| Call_get_query_execution (QueryExecutionId : string)
| Call_get_query_results (kwargs : ResultsRequest).

(** A scripted reply of the remote client: a value, or the detail of the
    exception it raises. *)
Definition reply (A : Type) : Type := (string + A)%type.

Record World : Type := {
  clock : list Z;
  start_replies : list (reply string);
  execution_replies : list (reply QueryExecution);
  results_replies : list (reply ResultsPage);
  calls : list Call
}.

(** What a call of the client comes to: a value, an exception, or the end
    of the script (the environment was asked for more than it was given). *)
Inductive outcome (A : Type) : Type :=
| Return (a : A)
| Raise (e : exn)
| ScriptEnded.

Arguments Return {A} a.
Arguments Raise {A} e.
Arguments ScriptEnded {A}.

Definition M (A : Type) : Type := World -> outcome A * World.

Definition ret {A} (a : A) : M A := fun w => (Return a, w).
Definition raise {A} (e : exn) : M A := fun w => (Raise e, w).

Definition bind {A B} (m : M A) (k : A -> M B) : M B :=
  fun w =>
    match m w with
    | (Return a, w') => k a w'
    | (Raise e, w') => (Raise e, w')
    | (ScriptEnded, w') => (ScriptEnded, w')
    end.

Notation "x <- m ;; k" := (bind m (fun x => k))
  (at level 61, m at next level, right associativity).
Notation "m ;;; k" := (bind m (fun _ => k))
  (at level 61, right associativity).

Definition of_reply {A} (r : reply A) : outcome A :=
  match r with
  | inl detail => Raise (ServiceError detail)
  | inr a => Return a
  end.

Definition log (c : Call) (w : World) : World :=
  {| clock := clock w; start_replies := start_replies w;
     execution_replies := execution_replies w;
     results_replies := results_replies w; calls := calls w ++ [c] |}.

(** [time.time()] *)
Definition time_time : M Z :=
  fun w =>
    let w := log Call_time w in
    match clock w with
    | [] => (ScriptEnded, w)
    | t :: later =>
        (Return t,
         {| clock := later; start_replies := start_replies w;
            execution_replies := execution_replies w;
            results_replies := results_replies w; calls := calls w |})
    end.

(** [time.sleep(seconds)] *)
Definition time_sleep (seconds : Z) : M unit :=
  fun w => (Return tt, log (Call_sleep seconds) w).

(** [self._client.start_query_execution(...)["QueryExecutionId"]] *)
Definition start_query_execution (query db wg : string) : M string :=
  fun w =>
    let w := log (Call_start_query_execution query db wg) w in
    match start_replies w with
    | [] => (ScriptEnded, w)
    | r :: later =>
        (of_reply r,
         {| clock := clock w; start_replies := later;
            execution_replies := execution_replies w;
            results_replies := results_replies w; calls := calls w |})
    end.

(** [self._client.get_query_execution(QueryExecutionId=id)["QueryExecution"]] *)
Definition get_query_execution (id : string) : M QueryExecution :=
  fun w =>
    let w := log (Call_get_query_execution id) w in
    match execution_replies w with
    | [] => (ScriptEnded, w)
    | r :: later =>
        (of_reply r,
         {| clock := clock w; start_replies := start_replies w;
            execution_replies := later;
            results_replies := results_replies w; calls := calls w |})
    end.

(** [self._client.get_query_results] called with the keyword arguments. *)
Definition get_query_results (kwargs : ResultsRequest) : M ResultsPage :=
  fun w =>
    let w := log (Call_get_query_results kwargs) w in
    match results_replies w with
    | [] => (ScriptEnded, w)
    | r :: later =>
        (of_reply r,
         {| clock := clock w; start_replies := start_replies w;
            execution_replies := execution_replies w;
            results_replies := later; calls := calls w |})
    end.

(** ** The client *)

Definition is_terminal (st : string) : bool :=
  String.eqb st "SUCCEEDED" || String.eqb st "FAILED" || String.eqb st "CANCELLED".

(** The [while True] of [_wait_for_completion].  Every turn that goes round
    again has consumed one status reply, so the loop is run for one turn
    more than the script has status replies. *)
Fixpoint wait_loop (self : AthenaClient) (turns : nat)
    (query_execution_id : string) (start_time : Z) : M string :=
  match turns with
  | O => fun w => (ScriptEnded, w)
  | S turns' =>
      now <- time_time ;;
      if now - start_time >? timeout self then
        raise (TimeoutError query_execution_id (timeout self))
      else
        response <- get_query_execution query_execution_id ;;
        let st := State response in
        if is_terminal st then ret st
        else
          time_sleep (poll_interval self) ;;;
          wait_loop self turns' query_execution_id start_time
  end.

Definition _wait_for_completion (self : AthenaClient)
    (query_execution_id : string) : M string :=
  fun w =>
    (start_time <- time_time ;;
     wait_loop self (S (length (execution_replies w))) query_execution_id
       start_time) w.

(** [max_rows is not None and len(rows) >= max_rows] *)
Definition cap_reached (max_rows : option Z) (rows : list dict) : bool :=
  match max_rows with
  | Some m => Z.of_nat (length rows) >=? m
  | None => false
  end.

(** Truthiness of an optional token. *)
Definition token_truthy (t : option string) : bool :=
  match t with
  | Some s => PyStr.truthy s
  | None => false
  end.

(** [col["Label"] or col["Name"]] *)
Definition label_or_name (col : ColumnInfo) : string :=
  if PyStr.truthy (Label col) then Label col else Name col.

(** [row.get("Data", [])] *)
Definition row_cells (row : Row) : list Datum :=
  match Data row with
  | Some cells => cells
  | None => []
  end.

(** The inner [for i, cell in enumerate(...)]: [row_data[columns[i]] = value],
    with the IndexError of [columns[i]]. *)
Fixpoint decode_cells (columns : list string) (i : nat) (cells : list Datum)
    (row_data : dict) : exn + dict :=
  match cells with
  | [] => inr row_data
  | cell :: cells' =>
      let value := VarCharValue cell in
      match nth_error columns i with
      | None => inl IndexError
      | Some name => decode_cells columns (S i) cells' (Dict.set row_data name value)
      end
  end.

Definition decode_row (columns : list string) (row : Row) : exn + dict :=
  decode_cells columns 0 (row_cells row) [].

(** The [for row in data_rows] of a page, with its [break]. *)
Fixpoint convert_rows (max_rows : option Z) (columns : list string)
    (data_rows : list Row) (rows : list dict) : exn + list dict :=
  match data_rows with
  | [] => inr rows
  | row :: data_rows' =>
      match decode_row columns row with
      | inl e => inl e
      | inr row_data =>
          let rows := rows ++ [row_data] in
          if cap_reached max_rows rows then inr rows
          else convert_rows max_rows columns data_rows' rows
      end
  end.

(** The keyword arguments of one page request. *)
Definition page_request (self : AthenaClient) (query_execution_id : string)
    (max_rows : option Z) (rows : list dict) (next_token : option string)
    (is_first_page : bool) : ResultsRequest :=
  {| kw_QueryExecutionId := query_execution_id;
     kw_MaxResults :=
       match max_rows with
       | Some m =>
           let remaining := m - Z.of_nat (length rows) in
           let page_cap := remaining + (if is_first_page then 1 else 0) in
           Z.max 1 (Z.min (max_results self) page_cap)
       | None => max_results self
       end;
     kw_NextToken := if token_truthy next_token then next_token else None |}.

(** The [while True] of [_fetch_results]; it yields the columns and rows it
    has when it breaks.  Every turn consumes one page reply. *)
Fixpoint fetch_loop (self : AthenaClient) (turns : nat)
    (query_execution_id : string) (max_rows : option Z)
    (columns : list string) (rows : list dict) (next_token : option string)
    (is_first_page : bool) : M (list string * list dict) :=
  match turns with
  | O => fun w => (ScriptEnded, w)
  | S turns' =>
      if cap_reached max_rows rows then ret (columns, rows)
      else
        response <- get_query_results
                      (page_request self query_execution_id max_rows rows
                         next_token is_first_page) ;;
        let columns :=
          if is_first_page then map label_or_name (ColumnInfos response)
          else columns in
        let data_rows :=
          if is_first_page then tl (Rows response) else Rows response in
        match convert_rows max_rows columns data_rows rows with
        | inl e => raise e
        | inr rows =>
            let next_token := NextToken response in
            if negb (token_truthy next_token) || cap_reached max_rows rows
            then ret (columns, rows)
            else fetch_loop self turns' query_execution_id max_rows columns
                   rows next_token false
        end
  end.

(** The pagination of [_fetch_results], up to the statistics lookup. *)
Definition paginate (self : AthenaClient) (query_execution_id : string)
    (max_rows : option Z) : M (list string * list dict) :=
  fun w =>
    fetch_loop self (S (length (results_replies w))) query_execution_id
      max_rows [] [] None true w.

Definition _fetch_results (self : AthenaClient) (query_execution_id : string)
    (max_rows : option Z) : M QueryResult :=
  page <- paginate self query_execution_id max_rows ;;
  execution <- get_query_execution query_execution_id ;;
  ret {| columns := fst page;
         rows := snd page;
         query_execution_id := query_execution_id;
         state := "SUCCEEDED";
         statistics := ExecStatistics execution |}.

(** [execution["QueryExecution"]["Status"].get("StateChangeReason",
    "Unknown error")] *)
Definition failure_reason (execution : QueryExecution) : string :=
  match StateChangeReason execution with
  | Some reason => reason
  | None => "Unknown error"
  end.

(** [query_to_run] of [execute_query]: wrapped when [enforce_limit and
    max_rows is not None]. *)
Definition query_to_run (query : string) (max_rows : option Z)
    (enforce_limit : bool) : string :=
  if enforce_limit then
    match max_rows with
    | Some m => _maybe_wrap_with_limit query m
    | None => query
    end
  else query.

Definition execute_query (self : AthenaClient) (query : string)
    (max_rows : option Z) (enforce_limit : bool) : M QueryResult :=
  query_execution_id <-
    start_query_execution (query_to_run query max_rows enforce_limit)
      (database self) (workgroup self) ;;
  st <- _wait_for_completion self query_execution_id ;;
  if negb (String.eqb st "SUCCEEDED") then
    execution <- get_query_execution query_execution_id ;;
    raise (RuntimeError ("Query failed: " ++ failure_reason execution)%string)
  else _fetch_results self query_execution_id max_rows.

(** *** Schema normalisation *)

(** [row.get("col_name") or ""] *)
Definition name_field (row : dict) : string :=
  or_empty (Dict.get_or_none row "col_name").

Definition has_tab (rows : list dict) : bool :=
  existsb (fun row => PyStr.contains PyStr.tab (name_field row)) rows.

(** [any(k for k in row.keys() if k != "col_name")]: some other key that is
    a truthy str. *)
Definition has_other_key (row : dict) : bool :=
  existsb (fun k => negb (String.eqb k "col_name") && PyStr.truthy k)
    (Dict.keys row).

Definition has_other_cols (rows : list dict) : bool :=
  existsb has_other_key rows.

Definition normalize_row (row : dict) : dict :=
  let raw := PyStr.rstrip_char PyStr.newline (name_field row) in
  let parts := PyStr.split PyStr.tab raw ++ [EmptyString; EmptyString; EmptyString] in
  [("col_name"%string, Some (PyStr.strip (nth 0 parts EmptyString)));
   ("data_type"%string, Some (PyStr.strip (nth 1 parts EmptyString)));
   ("comment"%string, Some (PyStr.strip (nth 2 parts EmptyString)))].

Definition _normalize_describe_rows (result : QueryResult) : list dict :=
  match rows result with
  | [] => []
  | _ =>
      if negb (existsb (String.eqb "col_name") (columns result)) then rows result
      else if negb (has_tab (rows result)) || has_other_cols (rows result)
      then rows result
      else map normalize_row (rows result)
  end.

Definition describe_table (self : AthenaClient) (table : string)
    (db : option string) : M (list dict) :=
  let db := match db with
            | Some d => if PyStr.truthy d then d else database self
            | None => database self
            end in
  result <- execute_query self ("DESCRIBE " ++ db ++ "." ++ table)%string
              (Some 500) false ;;
  ret (_normalize_describe_rows result).

(** *** DDL text *)

(** [col and col in row and row[col] is not None] *)
Definition col_value (col : option string) (row : dict) : option string :=
  match col with
  | Some c => if PyStr.truthy c then Dict.get_or_none row c else None
  | None => None
  end.

(** The [for row in result.rows] of [show_create_table_fq].  An empty row is
    skipped, so [next(iter(row.values()))] always finds a first value. *)
Fixpoint ddl_lines (col : option string) (rows : list dict)
    (lines : list string) : list string :=
  match rows with
  | [] => lines
  | row :: rows' =>
      match row with
      | [] => ddl_lines col rows' lines
      | (_, first_value) :: _ =>
          match col_value col row with
          | Some text => ddl_lines col rows' (lines ++ [text])
          | None => ddl_lines col rows' (lines ++ [py_str first_value])
          end
      end
  end.

Definition qualify (self : AthenaClient) (full_table_name : string) : string :=
  let full_table_name := PyStr.strip full_table_name in
  if negb (PyStr.contains "." full_table_name)
  then (database self ++ "." ++ full_table_name)%string
  else full_table_name.

Definition show_create_table_fq (self : AthenaClient)
    (full_table_name : string) : M string :=
  let full_table_name := qualify self full_table_name in
  result <- execute_query self ("SHOW CREATE TABLE " ++ full_table_name)%string
              (Some 1000) false ;;
  match rows result with
  | [] => ret EmptyString
  | _ =>
      let col := hd_error (columns result) in
      let lines := ddl_lines col (rows result) [] in
      ret (PyStr.rstrip (PyStr.join PyStr.nl lines))
  end.

(** ** The rest of the client, and its callers *)

(** [database or self.database] *)
Definition db_or_default (self : AthenaClient) (db : option string) : string :=
  match db with
  | Some d => if PyStr.truthy d then d else database self
  | None => database self
  end.

(** [row.get("tab_name", "")] *)
Definition tab_name_of (row : dict) : pyvalue :=
  match Dict.get row "tab_name" with
  | Some v => v
  | None => Some EmptyString
  end.

Definition list_tables (self : AthenaClient) (db : option string)
    : M (list pyvalue) :=
  let db := db_or_default self db in
  result <- execute_query self ("SHOW TABLES IN " ++ db)%string None false ;;
  ret (map tab_name_of (rows result)).

(** [s.split(ch, 1)] when [ch in s]: what stands before the first [ch] and
    what stands after it; None when [ch] is not in [s]. *)
Fixpoint split_first (ch : ascii) (s : string) : option (string * string) :=
  match s with
  | EmptyString => None
  | String c s' =>
      if Ascii.eqb c ch then Some (EmptyString, s')
      else match split_first ch s' with
           | Some (before, after) => Some (String c before, after)
           | None => None
           end
  end.

(** The test [if "." not in full_table_name] and the split that follows it
    are one match on [split_first]. *)
Definition describe_table_fq (self : AthenaClient) (full_table_name : string)
    : M (list dict) :=
  let full_table_name := PyStr.strip full_table_name in
  match split_first "." full_table_name with
  | None => describe_table self full_table_name None
  | Some (db, table) => describe_table self table (Some db)
  end.

Definition get_sample_data (self : AthenaClient) (table : string) (limit : Z)
    (db : option string) : M QueryResult :=
  let db := db_or_default self db in
  execute_query self
    ("SELECT * FROM " ++ db ++ "." ++ table ++ " LIMIT " ++ PyStr.str_of_int limit)%string
    None false.

Definition get_sample_data_fq (self : AthenaClient) (full_table_name : string)
    (limit : Z) : M QueryResult :=
  let full_table_name := qualify self full_table_name in
  execute_query self
    ("SELECT * FROM " ++ full_table_name ++ " LIMIT " ++ PyStr.str_of_int limit)%string
    None false.

(** *** Rendering (knowledge_gen.py) *)

(** [l[:n]] for a list, a negative [n] counting from the end. *)
Definition slice_to {A} (n : Z) (l : list A) : list A :=
  if n <? 0 then firstn (Z.to_nat (Z.of_nat (length l) + n)) l
  else firstn (Z.to_nat n) l.

(** [s[:n]] for a str and a literal [n]. *)
Fixpoint str_take (n : nat) (s : string) : string :=
  match n, s with
  | S n', String c s' => String c (str_take n' s')
  | _, _ => EmptyString
  end.

(** [s.startswith(ch)] for a one-character [ch]. *)
Definition starts_with_char (ch : ascii) (s : string) : bool :=
  match s with
  | String c _ => Ascii.eqb c ch
  | EmptyString => false
  end.

(** [str(row.get(col, "NULL"))[:width]] *)
Definition render_cell (width : nat) (row : dict) (col : string) : string :=
  str_take width
    (match Dict.get row col with
     | Some v => py_str v
     | None => "NULL"%string
     end).

Definition table_line (cells : list string) : string :=
  ("| " ++ PyStr.join " | " cells ++ " |")%string.

(** The lines of [_format_markdown_table], before they are joined. *)
Definition markdown_table_lines (cols : list string) (rs : list dict)
    (max_rows : Z) : list string :=
  [table_line cols; table_line (repeat "---"%string (length cols))]
  ++ map (fun row => table_line (map (render_cell 80 row) cols))
       (slice_to max_rows rs)
  ++ (if Z.of_nat (length rs) >? max_rows
      then [(PyStr.nl ++ "... and "
             ++ PyStr.str_of_int (Z.of_nat (length rs) - max_rows)
             ++ " more rows (truncated)")%string]
      else []).

Definition _format_markdown_table (cols : list string) (rs : list dict)
    (max_rows : Z) : string :=
  match cols with
  | [] => EmptyString
  | _ => PyStr.join PyStr.nl (markdown_table_lines cols rs max_rows)
  end.

(** [(row.get(key) or "").strip()] *)
Definition stripped_field (row : dict) (key : string) : string :=
  PyStr.strip (or_empty (Dict.get_or_none row key)).

Fixpoint _columns_from_schema (describe_rows : list dict)
    : list (string * string) :=
  match describe_rows with
  | [] => []
  | row :: later =>
      let col_name := stripped_field row "col_name" in
      let data_type := stripped_field row "data_type" in
      if negb (PyStr.truthy col_name) || starts_with_char "#" col_name
      then _columns_from_schema later
      else (col_name, data_type) :: _columns_from_schema later
  end.

(** *** The tool layer (server.py) *)

(** [try: ... except Exception as e: ...] *)
Definition try_except {A} (body : M A) (handler : exn -> M A) : M A :=
  fun w =>
    match body w with
    | (Raise e, w') => handler e w'
    | done => done
    end.

(** [row.get(key, "")] *)
Definition get_or_empty (row : dict) (key : string) : pyvalue :=
  match Dict.get row key with
  | Some v => v
  | None => Some EmptyString
  end.

(** The line the describe tool makes of a schema row, when it makes one:
    [if col_name and not col_name.startswith("#")]. *)
Definition schema_line (row : dict) : list string :=
  let col_name := get_or_empty row "col_name" in
  let data_type := get_or_empty row "data_type" in
  match col_name with
  | Some name =>
      if PyStr.truthy name && negb (starts_with_char "#" name)
      then [("| " ++ name ++ " | " ++ py_str data_type ++ " |")%string]
      else []
  | None => []
  end.

(** The client's methods, named apart from the tools of the same name. *)
Definition athena_list_tables := list_tables.
Definition athena_describe_table := describe_table.

Module Server.

Section Tools.

(** [str(e)], which each exception class defines for itself. *)
Variable str_exn : exn -> string.

(** The module's client, [athena = AthenaClient()]. *)
Variable athena : AthenaClient.

Definition list_tables (db : string) : M string :=
  try_except
    (tables <- athena_list_tables athena (Some db) ;;
     ret ("Tables in " ++ db ++ ":" ++ PyStr.nl
          ++ PyStr.join PyStr.nl
               (map (fun t => "  - " ++ py_str t) tables))%string)
    (fun e => ret ("Failed to list tables: " ++ str_exn e)%string).

Definition describe_table (table db : string) : M string :=
  try_except
    (schema <- athena_describe_table athena table (Some db) ;;
     let lines :=
       [("Schema for " ++ db ++ "." ++ table ++ ":")%string; EmptyString;
        "| Column | Type |"%string; "| --- | --- |"%string]
       ++ flat_map schema_line schema in
     ret (PyStr.join PyStr.nl lines))
    (fun e => ret ("Failed to describe table: " ++ str_exn e)%string).

End Tools.

End Server.

(** ** Predicates, readings of the specification and sample scripts

    What the statements below are phrased with: predicates over scripts
    and results, the specification's own wording where it differs from the
    code, and the concrete clients and scripts the statements are tried on. *)

(** Every call a computation adds to the log satisfies [P]. *)
Definition emits {A} (P : Call -> Prop) (m : M A) : Prop :=
  forall w, exists later, calls (snd (m w)) = calls w ++ later /\ Forall P later.

(** A call that is neither a submission nor a page request. *)
Definition quiet (c : Call) : Prop :=
  match c with
  | Call_start_query_execution _ _ _ => False
  | Call_get_query_results _ => False
  | _ => True
  end.

Definition not_submission (c : Call) : Prop :=
  match c with
  | Call_start_query_execution _ _ _ => False
  | _ => True
  end.

Definition is_page_request (c : Call) : Prop :=
  match c with
  | Call_get_query_results _ => True
  | _ => False
  end.

(** What every page request of a fetch for [id] satisfies. *)
Definition page_request_ok (self : AthenaClient) (id : string)
    (max_rows : option Z) (c : Call) : Prop :=
  match c with
  | Call_get_query_results kw =>
      kw_QueryExecutionId kw = id
      /\ match max_rows with
         | Some m => 1 <= kw_MaxResults kw <= Z.max 1 (max_results self)
                     /\ kw_MaxResults kw <= Z.max 1 (m + 1)
         | None => kw_MaxResults kw = max_results self
         end
  | Call_get_query_execution id' => id' = id
  | _ => False
  end.


(** A computation leaves the script of page replies as it found it. *)
Definition keeps_pages {A} (m : M A) : Prop :=
  forall w, results_replies (snd (m w)) = results_replies w.

(** A result with other rows. *)
Definition with_rows (result : QueryResult) (rs : list dict) : QueryResult :=
  {| columns := columns result; rows := rs;
     query_execution_id := query_execution_id result; state := state result;
     statistics := statistics result |}.

(** Every character of a string satisfies [p]. *)
Fixpoint all_chars (p : ascii -> bool) (s : string) : bool :=
  match s with
  | EmptyString => true
  | String c s' => p c && all_chars p s'
  end.

(** A string with no leading whitespace. *)
Definition clean (s : string) : Prop :=
  match s with
  | EmptyString => True
  | String c _ => PyStr.isspace c = false
  end.

(** One alternative of the pattern followed by [\b]. *)
Definition alt_matches (kw r : string) : bool :=
  match PyStr.match_literal_ic kw r with
  | Some rest => PyStr.word_ends rest
  | None => false
  end.

(** Every character of a keyword is in [\w]. *)
Fixpoint all_word (kw : string) : bool :=
  match kw with
  | EmptyString => true
  | String l kw' => PyStr.isword l && all_word kw'
  end.

(** A computation only adds to the call log. *)
Definition grows {A} (m : M A) : Prop :=
  forall w, exists later, calls (snd (m w)) = calls w ++ later.

(** *** A sample client and its scripts *)

Definition demo_client : AthenaClient :=
  {| workgroup := "data_stitch"; database := "d11_stitch"; region := "us-east-1";
     max_results := 100; poll_interval := 1; timeout := 300 |}.

Definition demo_stats : Statistics :=
  [("DataScannedInBytes"%string, 2048); ("EngineExecutionTimeInMillis"%string, 37)].

Definition succeeded : QueryExecution :=
  {| State := "SUCCEEDED"; StateChangeReason := None;
     ExecStatistics := Some demo_stats |}.

Definition running : QueryExecution :=
  {| State := "RUNNING"; StateChangeReason := None; ExecStatistics := None |}.

Definition text_cell (s : string) : Datum := {| VarCharValue := Some s |}.
Definition null_cell : Datum := {| VarCharValue := None |}.
Definition row_of (cells : list Datum) : Row := {| Data := Some cells |}.

(** One page: the header row, then two data rows; no further page. *)
Definition demo_page : ResultsPage :=
  {| ColumnInfos := [ {| Label := "id"; Name := "id" |};
                      {| Label := ""; Name := "city" |} ];
     Rows := [ row_of [text_cell "id"; text_cell "city"];
               row_of [text_cell "1"; text_cell "Pune"];
               row_of [text_cell "2"; null_cell] ];
     NextToken := None |}.

(** A run that succeeds at the first poll. *)
Definition demo_world : World :=
  {| clock := [1000; 1000];
     start_replies := [inr "q-1"%string];
     execution_replies := [inr succeeded; inr succeeded];
     results_replies := [inr demo_page];
     calls := [] |}.

(** *** The specification's reading of the wrapped statement *)

Fixpoint drop_one_trailing (ch : ascii) (s : string) : string :=
  match s with
  | EmptyString => EmptyString
  | String c EmptyString => if Ascii.eqb c ch then EmptyString else s
  | String c s' => String c (drop_one_trailing ch s')
  end.

(** As the specification words it: the statement stripped of surrounding
    whitespace and of a single trailing semicolon. *)
Definition spec_strip_single_semicolon (query : string) : string :=
  PyStr.strip (drop_one_trailing ";" (PyStr.strip query)).

Definition wrapped (q : string) (n : Z) : string :=
  ("SELECT * FROM (" ++ PyStr.nl ++ q ++ PyStr.nl ++ ") AS _q" ++ PyStr.nl
   ++ "LIMIT " ++ PyStr.str_of_int n)%string.

(** What the poller comes to, read off the script: [ts] are the clock
    readings of the successive deadline checks, [es] the status replies. *)
Fixpoint poll_outcome (self : AthenaClient) (id : string) (start : Z)
    (ts : list Z) (es : list (reply QueryExecution)) : outcome string :=
  match ts with
  | [] => ScriptEnded
  | t :: ts' =>
      if t - start >? timeout self then Raise (TimeoutError id (timeout self))
      else
        match es with
        | [] => ScriptEnded
        | inl detail :: _ => Raise (ServiceError detail)
        | inr ex :: es' =>
            if is_terminal (State ex) then Return (State ex)
            else poll_outcome self id start ts' es'
        end
  end.

(** The calls of a polling run after the reading of the start time: rounds
    of check, poll and sleep, closed by a check alone or by a check and a
    poll. *)
Inductive poll_log (id : string) (pause : Z) : list Call -> Prop :=
| poll_log_check : poll_log id pause [Call_time]
| poll_log_poll : poll_log id pause [Call_time; Call_get_query_execution id]
| poll_log_round l :
    poll_log id pause l ->
    poll_log id pause
      (Call_time :: Call_get_query_execution id :: Call_sleep pause :: l).



Definition page_data_rows (is_first_page : bool) (page : ResultsPage) : list Row :=
  if is_first_page then tl (Rows page) else Rows page.

(** The data rows the remote result holds, as the script serves them: page
    after page while a page carries a truthy token, the first row of the
    first page left out. *)
Fixpoint remote_data_rows (is_first_page : bool)
    (pages : list (reply ResultsPage)) : list Row :=
  match pages with
  | inr page :: later =>
      page_data_rows is_first_page page
      ++ (if token_truthy (NextToken page) then remote_data_rows false later
          else [])
  | _ => []
  end.

Definition decodes (cols : list string) (raw : Row) (d : dict) : Prop :=
  decode_row cols raw = inr d.

(** A script of pages whose last page carries no truthy token. *)
Fixpoint chain_ends (pages : list ResultsPage) : Prop :=
  match pages with
  | [] => False
  | page :: later =>
      match later with
      | [] => token_truthy (NextToken page) = false
      | _ => chain_ends later
      end
  end.

(** Two pages: the header and one data row, then two data rows. *)
Definition page_one : ResultsPage :=
  {| ColumnInfos := [ {| Label := "id"; Name := "id" |};
                      {| Label := ""; Name := "city" |} ];
     Rows := [ row_of [text_cell "id"; text_cell "city"];
               row_of [text_cell "1"; text_cell "Pune"] ];
     NextToken := Some "t1"%string |}.

Definition page_two : ResultsPage :=
  {| ColumnInfos := [ {| Label := "id"; Name := "id" |};
                      {| Label := ""; Name := "city" |} ];
     Rows := [ row_of [text_cell "2"; null_cell];
               row_of [text_cell "3"; text_cell "Agra"] ];
     NextToken := None |}.

Definition two_page_world : World :=
  {| clock := []; start_replies := [];
     execution_replies := [inr succeeded];
     results_replies := [inr page_one; inr page_two];
     calls := [] |}.

(** Pagination completes; the statistics lookup then fails. *)
Definition stats_down_world : World :=
  {| clock := []; start_replies := [];
     execution_replies := [inl "ThrottlingException"%string];
     results_replies := [inr demo_page];
     calls := [] |}.

(** A first page whose data row carries three cells under two columns. *)
Definition wide_row_world : World :=
  {| clock := []; start_replies := [];
     execution_replies := [inr succeeded];
     results_replies :=
       [inr {| ColumnInfos := [ {| Label := "id"; Name := "id" |};
                                {| Label := ""; Name := "city" |} ];
               Rows := [ row_of [text_cell "id"; text_cell "city"];
                         row_of [text_cell "1"; text_cell "Pune"; text_cell "x"] ];
               NextToken := None |}];
     calls := [] |}.

(** A description answered with three declared columns and, per row, one
    cell holding the tab-joined fields. *)
Definition describe_page : ResultsPage :=
  {| ColumnInfos := [ {| Label := "col_name"; Name := "col_name" |};
                      {| Label := "data_type"; Name := "data_type" |};
                      {| Label := "comment"; Name := "comment" |} ];
     Rows := [ row_of [text_cell "col_name"; text_cell "data_type";
                       text_cell "comment"];
               row_of [text_cell ("id" ++ String PyStr.tab "bigint"
                                  ++ String PyStr.tab "primary key")];
               row_of [text_cell ("name" ++ String PyStr.tab "varchar"
                                  ++ String PyStr.tab "")] ];
     NextToken := None |}.

Definition describe_world : World :=
  {| clock := []; start_replies := [];
     execution_replies := [inr succeeded];
     results_replies := [inr describe_page];
     calls := [] |}.

Definition failed : QueryExecution :=
  {| State := "FAILED";
     StateChangeReason := Some "SYNTAX_ERROR: line 1:8"%string;
     ExecStatistics := None |}.

(** A run whose second poll shows FAILED. *)
Definition failing_world : World :=
  {| clock := [1000; 1000; 1001];
     start_replies := [inr "q-2"%string];
     execution_replies := [inr running; inr failed; inr failed];
     results_replies := [inr demo_page];
     calls := [] |}.

Definition ddl_page : ResultsPage :=
  {| ColumnInfos := [ {| Label := "createtab_stmt"; Name := "createtab_stmt" |} ];
     Rows := [ row_of [text_cell "createtab_stmt"];
               row_of [text_cell "CREATE EXTERNAL TABLE `d11_stitch.orders`("];
               row_of [text_cell "  `id` bigint)"];
               row_of [text_cell "  "] ];
     NextToken := None |}.

Definition ddl_world : World :=
  {| clock := [1000; 1000];
     start_replies := [inr "q-3"%string];
     execution_replies := [inr succeeded; inr succeeded];
     results_replies := [inr ddl_page];
     calls := [] |}.

(** The record of a row of a one-column result whose cell has a text. *)
Definition text_row (c t : string) : dict := [(c, Some t)].

(** (a) Some row's name field holds a tab. *)
Definition tab_in_some_name (rs : list dict) : Prop :=
  Exists (fun row => PyStr.contains PyStr.tab (name_field row) = true) rs.

(** (b), as the code tests it: no row has a key other than [col_name],
    the empty key apart. *)
Definition only_name_keys (rs : list dict) : Prop :=
  Forall (fun row =>
            Forall (fun k => k = "col_name"%string \/ k = EmptyString)
              (Dict.keys row)) rs.

(** When the normaliser splits. *)
Definition splits (result : QueryResult) : Prop :=
  rows result <> []
  /\ In "col_name"%string (columns result)
  /\ tab_in_some_name (rows result)
  /\ only_name_keys (rows result).

(** (b), as the specification words it: no row has a populated field other
    than the name field, a field being populated when it holds a value. *)
Definition spec_populated (v : pyvalue) : bool :=
  match v with Some _ => true | None => false end.

Definition spec_other_field_populated (row : dict) : bool :=
  existsb (fun kv => negb (String.eqb (fst kv) "col_name")
                     && spec_populated (snd kv)) row.

(** The specification's two conditions. *)
Definition spec_detects_anomaly (rs : list dict) : bool :=
  existsb (fun row => PyStr.contains PyStr.tab (name_field row)) rs
  && negb (existsb spec_other_field_populated rs).

(** A description row of two cells, the second without a value. *)
Definition half_null_world : World :=
  {| clock := []; start_replies := [];
     execution_replies := [inr succeeded];
     results_replies :=
       [inr {| ColumnInfos := [ {| Label := "col_name"; Name := "col_name" |};
                                {| Label := "data_type"; Name := "data_type" |} ];
               Rows := [ row_of [text_cell "col_name"; text_cell "data_type"];
                         row_of [text_cell ("id" ++ String PyStr.tab "bigint");
                                 null_cell] ];
               NextToken := None |}];
     calls := [] |}.

(** The QueryResult of the description of the specification's scenario. *)
Definition describe_result : QueryResult :=
  {| columns := ["col_name"; "data_type"; "comment"]%string;
     rows := [[("col_name"%string,
                Some ("id" ++ String PyStr.tab "bigint"
                      ++ String PyStr.tab "primary key")%string)];
              [("col_name"%string,
                Some ("name" ++ String PyStr.tab "varchar"
                      ++ String PyStr.tab "")%string)]];
     query_execution_id := "q-1";
     state := "SUCCEEDED";
     statistics := Some demo_stats |}.

(** *** Further scripts *)

(** A page that ignores the page size asked for: five data rows at once. *)
Definition greedy_world : World :=
  {| clock := []; start_replies := [];
     execution_replies := [inr succeeded];
     results_replies :=
       [inr {| ColumnInfos := [ {| Label := "n"; Name := "n" |} ];
               Rows := [ row_of [text_cell "n"]; row_of [text_cell "1"];
                         row_of [text_cell "2"]; row_of [text_cell "3"];
                         row_of [text_cell "4"]; row_of [text_cell "5"] ];
               NextToken := Some "more"%string |}];
     calls := [] |}.



Definition describe_run_world : World :=
  {| clock := [1000; 1000];
     start_replies := [inr "q-5"%string];
     execution_replies := [inr succeeded; inr succeeded];
     results_replies := [inr describe_page];
     calls := [] |}.

(** The service serves three rows to a sample of one. *)
Definition sample_world : World :=
  {| clock := [1000; 1000];
     start_replies := [inr "q-6"%string];
     execution_replies := [inr succeeded; inr succeeded];
     results_replies := [inr page_one; inr page_two];
     calls := [] |}.

(** [str(e)] for the witness: the message an exception was made with. *)
Definition demo_str_exn (e : exn) : string :=
  match e with
  | TimeoutError id t =>
      ("Query " ++ id ++ " timed out after " ++ PyStr.str_of_int t ++ "s")%string
  | RuntimeError msg => msg
  | IndexError => "list index out of range"%string
  | ServiceError detail => detail
  end.

(** The submission is refused. *)
Definition refused_world : World :=
  {| clock := []; start_replies := [inl "AccessDeniedException"%string];
     execution_replies := []; results_replies := []; calls := [] |}.

(** A DDL answered with a cell that has no value between two lines. *)
Definition ddl_gap_world : World :=
  {| clock := [1000; 1000];
     start_replies := [inr "q-7"%string];
     execution_replies := [inr succeeded; inr succeeded];
     results_replies :=
       [inr {| ColumnInfos := [ {| Label := "createtab_stmt";
                                   Name := "createtab_stmt" |} ];
               Rows := [ row_of [text_cell "createtab_stmt"];
                         row_of [text_cell "CREATE TABLE t ("];
                         row_of [null_cell];
                         row_of [text_cell ")"] ];
               NextToken := None |}];
     calls := [] |}.

(** * Properties *)

(** ** Strings: stripping and the keyword pattern *)

Section StripLemmas.

Variable p : ascii -> bool.

Lemma rstrip_by_keep (c : ascii) (s : string) :
  p c = false -> PyStr.rstrip_by p (String c s) = String c (PyStr.rstrip_by p s).
Proof.
  intros Hc. simpl. rewrite Hc. destruct (PyStr.rstrip_by p s); reflexivity.
Qed.

Lemma rstrip_by_head (c : ascii) (s : string) :
  (PyStr.rstrip_by p (String c s) = EmptyString /\ p c = true)
  \/ exists r, PyStr.rstrip_by p (String c s) = String c r.
Proof.
  simpl. destruct (PyStr.rstrip_by p s) as [|c' r].
  - destruct (p c) eqn:Hc; [left; auto | right; eauto].
  - right. eauto.
Qed.

End StripLemmas.

Lemma lstrip_clean (s : string) : clean (PyStr.lstrip_by PyStr.isspace s).
Proof.
  induction s as [|c s IH]; simpl; [exact I|].
  destruct (PyStr.isspace c) eqn:Hc; [exact IH | exact Hc].
Qed.

Lemma clean_lstrip (s : string) : clean s -> PyStr.lstrip_by PyStr.isspace s = s.
Proof.
  destruct s as [|c s]; simpl; [reflexivity|]. intros ->. reflexivity.
Qed.

Lemma clean_rstrip_by (p : ascii -> bool) (s : string) :
  clean s -> clean (PyStr.rstrip_by p s).
Proof.
  destruct s as [|c s]; [intros; exact I|]. intros Hc.
  destruct (rstrip_by_head p c s) as [[-> _]|[r ->]]; [exact I | exact Hc].
Qed.

Ltac each_ascii c :=
  destruct c as [[] [] [] [] [] [] [] []]; vm_compute; try reflexivity; try discriminate.

Lemma isspace_not_word (c : ascii) : PyStr.isspace c = true -> PyStr.isword c = false.
Proof. each_ascii c. Qed.

Lemma semicolon_not_word (c : ascii) : Ascii.eqb ";" c = true -> PyStr.isword c = false.
Proof. each_ascii c. Qed.

Lemma isword_upper (c : ascii) : PyStr.isword (PyStr.upper c) = PyStr.isword c.
Proof. each_ascii c. Qed.

Section RstripKeepsMatch.

Variable p : ascii -> bool.
Hypothesis p_not_word : forall c, p c = true -> PyStr.isword c = false.

Lemma word_ends_rstrip (r : string) :
  PyStr.word_ends (PyStr.rstrip_by p r) = PyStr.word_ends r.
Proof.
  destruct r as [|c s]; [reflexivity|].
  destruct (rstrip_by_head p c s) as [[-> Hc]|[r' ->]]; simpl.
  - rewrite (p_not_word c Hc). reflexivity.
  - reflexivity.
Qed.

Lemma alt_matches_rstrip (kw r : string) :
  all_word kw = true ->
  alt_matches kw (PyStr.rstrip_by p r) = alt_matches kw r.
Proof.
  revert r. induction kw as [|l kw IH]; intros r Hkw.
  - unfold alt_matches. simpl. apply word_ends_rstrip.
  - simpl in Hkw. apply andb_true_iff in Hkw as [Hl Hkw].
    destruct r as [|c s]; [reflexivity|].
    destruct (Ascii.eqb (PyStr.upper c) (PyStr.upper l)) eqn:Heq.
    + assert (Hw : PyStr.isword c = true).
      { apply Ascii.eqb_eq in Heq.
        rewrite <- isword_upper, Heq, isword_upper. exact Hl. }
      assert (Hp : p c = false).
      { destruct (p c) eqn:Hp; [|reflexivity].
        rewrite (p_not_word c Hp) in Hw. discriminate. }
      rewrite (rstrip_by_keep p c s Hp).
      unfold alt_matches in *. simpl. rewrite Heq. apply IH. exact Hkw.
    + destruct (rstrip_by_head p c s) as [[-> _]|[r' ->]];
        unfold alt_matches; simpl; rewrite ?Heq; reflexivity.
Qed.

Lemma keyword_then_boundary_rstrip (r : string) :
  keyword_then_boundary (PyStr.rstrip_by p r) = keyword_then_boundary r.
Proof.
  unfold keyword_then_boundary.
  assert (Hall : forallb all_word non_wrappable_keywords = true) by reflexivity.
  induction non_wrappable_keywords as [|kw kws IH]; [reflexivity|].
  simpl in Hall. apply andb_true_iff in Hall as [Hkw Hall].
  simpl. fold (alt_matches kw (PyStr.rstrip_by p r)). fold (alt_matches kw r).
  rewrite (alt_matches_rstrip kw r Hkw), (IH Hall). reflexivity.
Qed.

End RstripKeepsMatch.

(** What [_strip_trailing_semicolon] removes never touches the leading
    keyword: the pattern finds the same thing in the stripped statement and
    in the caller's. *)
Lemma search_strip_trailing_semicolon (query : string) :
  _NON_WRAPPABLE_PREFIX_search (_strip_trailing_semicolon query)
  = _NON_WRAPPABLE_PREFIX_search query.
Proof.
  unfold _NON_WRAPPABLE_PREFIX_search, _strip_trailing_semicolon, PyStr.strip,
    PyStr.rstrip_char.
  set (r := PyStr.lstrip_by PyStr.isspace query).
  assert (Hr : clean r) by apply lstrip_clean.
  set (a := PyStr.rstrip_by (Ascii.eqb ";") (PyStr.rstrip_by PyStr.isspace r)).
  assert (Ha : clean a) by (apply clean_rstrip_by, clean_rstrip_by, Hr).
  rewrite (clean_lstrip a Ha).
  rewrite (clean_lstrip _ (clean_rstrip_by PyStr.isspace a Ha)).
  rewrite (keyword_then_boundary_rstrip _ isspace_not_word).
  unfold a.
  rewrite (keyword_then_boundary_rstrip _ semicolon_not_word).
  apply (keyword_then_boundary_rstrip _ isspace_not_word).
Qed.

(** ** The call log only grows *)

Lemma grows_ret {A} (a : A) : grows (ret a).
Proof. intros w. exists []. simpl. now rewrite app_nil_r. Qed.

Lemma grows_raise {A} (e : exn) : grows (@raise A e).
Proof. intros w. exists []. simpl. now rewrite app_nil_r. Qed.

Lemma grows_bind {A B} (m : M A) (k : A -> M B) :
  grows m -> (forall a, grows (k a)) -> grows (bind m k).
Proof.
  intros Hm Hk w. unfold bind. destruct (Hm w) as [l1 H1].
  destruct (m w) as [[a|e|] w1]; simpl in *.
  - destruct (Hk a w1) as [l2 H2]. exists (l1 ++ l2).
    rewrite H2, H1, app_assoc. reflexivity.
  - eauto.
  - eauto.
Qed.

Lemma grows_time_time : grows time_time.
Proof.
  intros w. unfold time_time. simpl. destruct (clock w); simpl; eauto.
Qed.

Lemma grows_time_sleep (s : Z) : grows (time_sleep s).
Proof. intros w. simpl. eauto. Qed.

Lemma grows_get_query_execution (id : string) : grows (get_query_execution id).
Proof.
  intros w. unfold get_query_execution. simpl.
  destruct (execution_replies w); simpl; eauto.
Qed.

Lemma grows_get_query_results (kwargs : ResultsRequest) :
  grows (get_query_results kwargs).
Proof.
  intros w. unfold get_query_results. simpl.
  destruct (results_replies w); simpl; eauto.
Qed.

Lemma grows_wait_loop self turns id start : grows (wait_loop self turns id start).
Proof.
  induction turns as [|n IH]; simpl.
  - intros w. exists []. simpl. now rewrite app_nil_r.
  - apply grows_bind; [apply grows_time_time|]. intros now.
    destruct (now - start >? timeout self); [apply grows_raise|].
    apply grows_bind; [apply grows_get_query_execution|]. intros r.
    destruct (is_terminal (State r)); [apply grows_ret|].
    apply grows_bind; [apply grows_time_sleep | intros _; exact IH].
Qed.

Lemma grows_wait_for_completion self id : grows (_wait_for_completion self id).
Proof.
  intros w. unfold _wait_for_completion.
  apply (grows_bind time_time); [apply grows_time_time|].
  intros t. apply grows_wait_loop.
Qed.

Lemma grows_fetch_loop self turns id max cols rs tok first :
  grows (fetch_loop self turns id max cols rs tok first).
Proof.
  revert cols rs tok first. induction turns as [|n IH]; intros cols rs tok first; simpl.
  - intros w. exists []. simpl. now rewrite app_nil_r.
  - destruct (cap_reached max rs); [apply grows_ret|].
    apply grows_bind; [apply grows_get_query_results|]. intros page.
    destruct (convert_rows _ _ _ _); [apply grows_raise|].
    destruct (_ || _); [apply grows_ret | apply IH].
Qed.

Lemma grows_fetch_results self id max : grows (_fetch_results self id max).
Proof.
  unfold _fetch_results. apply grows_bind.
  - intros w. apply grows_fetch_loop.
  - intros page. apply grows_bind; [apply grows_get_query_execution|].
    intros. apply grows_ret.
Qed.

(** The first thing [execute_query] does is submit [query_to_run]. *)
Lemma execute_query_submits self query max_rows enforce_limit w :
  exists later,
    calls (snd (execute_query self query max_rows enforce_limit w))
    = calls w
      ++ Call_start_query_execution (query_to_run query max_rows enforce_limit)
           (database self) (workgroup self) :: later.
Proof.
  unfold execute_query.
  set (k := fun id : string => _).
  assert (Hk : forall id, grows (k id)).
  { intros id. unfold k. apply grows_bind; [apply grows_wait_for_completion|].
    intros st. destruct (negb _); [|apply grows_fetch_results].
    apply grows_bind; [apply grows_get_query_execution|].
    intros. apply grows_raise. }
  unfold bind at 1. unfold start_query_execution. simpl.
  destruct (start_replies w) as [|[e|id] later0]; simpl; eauto.
  match goal with |- context [k id ?w1] => destruct (Hk id w1) as [l Hl] end.
  simpl in Hl. rewrite Hl. rewrite <- app_assoc. simpl. eauto.
Qed.

(** ** C3, C7: what is submitted *)

(** C3 fails as stated: a non-wrappable statement given with a leading blank
    and a trailing semicolon is not submitted as the caller wrote it. *)
Lemma C3_counterexample :
  _NON_WRAPPABLE_PREFIX_search " SHOW TABLES;" = true
  /\ ~ (exists later,
          calls (snd (execute_query demo_client " SHOW TABLES;" (Some 5) true
                        demo_world))
          = Call_start_query_execution " SHOW TABLES;" "d11_stitch" "data_stitch"
              :: later).
Proof.
  split; [reflexivity|]. intros [later H]. vm_compute in H. discriminate H.
Qed.

(** C3 (amended): a statement whose leading keyword is in the non-wrappable
    set is never wrapped.  With a row cap and limit enforcement the text
    submitted is the caller's statement stripped of surrounding whitespace
    and of its trailing semicolons; without limit enforcement it is the
    caller's string itself. *)
Theorem C3_non_wrappable_never_wrapped :
  forall (self : AthenaClient) (query : string) (n : Z) (w : World),
    _NON_WRAPPABLE_PREFIX_search query = true ->
    (exists later,
        calls (snd (execute_query self query (Some n) true w))
        = calls w
          ++ Call_start_query_execution (_strip_trailing_semicolon query)
               (database self) (workgroup self) :: later)
    /\ (exists later,
          calls (snd (execute_query self query (Some n) false w))
          = calls w
            ++ Call_start_query_execution query (database self) (workgroup self)
                 :: later).
Proof.
  intros self query n w Hkw. split.
  - destruct (execute_query_submits self query (Some n) true w) as [later H].
    exists later. rewrite H. unfold query_to_run, _maybe_wrap_with_limit.
    rewrite search_strip_trailing_semicolon, Hkw. reflexivity.
  - exact (execute_query_submits self query (Some n) false w).
Qed.

Lemma C3_witness :
  _NON_WRAPPABLE_PREFIX_search " show tables ;; " = true
  /\ (exists later,
        calls (snd (execute_query demo_client " show tables ;; " (Some 5) true
                      demo_world))
        = calls demo_world
          ++ Call_start_query_execution "show tables"
               (database demo_client) (workgroup demo_client) :: later).
Proof.
  split; [reflexivity|].
  exact (proj1 (C3_non_wrappable_never_wrapped demo_client " show tables ;; " 5
                  demo_world eq_refl)).
Defined.

(** C7 fails as stated: every trailing semicolon is removed, not a single
    one, so for [SELECT 1;;] the subquery sent is not the statement less one
    semicolon. *)
Lemma C7_counterexample :
  _NON_WRAPPABLE_PREFIX_search "SELECT 1;;" = false
  /\ ~ (exists later,
          calls (snd (execute_query demo_client "SELECT 1;;" (Some 1) true
                        demo_world))
          = Call_start_query_execution
              (wrapped (spec_strip_single_semicolon "SELECT 1;;") 1)
              "d11_stitch" "data_stitch" :: later).
Proof.
  split; [reflexivity|]. intros [later H]. vm_compute in H. discriminate H.
Qed.

(** C7 (amended): a wrappable statement submitted with a row cap [n] and
    limit enforcement is sent as [SELECT * FROM (], newline, the statement
    stripped of surrounding whitespace and of all its trailing semicolons,
    newline, [) AS _q], newline, [LIMIT n]; [SELECT 1] with cap 1 becomes
    the four lines of the scenario. *)
Theorem C7_wrappable_sent_wrapped :
  forall (self : AthenaClient) (query : string) (n : Z) (w : World),
    _NON_WRAPPABLE_PREFIX_search query = false ->
    (exists later,
        calls (snd (execute_query self query (Some n) true w))
        = calls w
          ++ Call_start_query_execution
               ("SELECT * FROM (" ++ PyStr.nl ++ _strip_trailing_semicolon query
                ++ PyStr.nl ++ ") AS _q" ++ PyStr.nl ++ "LIMIT "
                ++ PyStr.str_of_int n)%string
               (database self) (workgroup self) :: later)
    /\ query_to_run "SELECT 1" (Some 1) true
       = ("SELECT * FROM (" ++ PyStr.nl ++ "SELECT 1" ++ PyStr.nl ++ ") AS _q"
          ++ PyStr.nl ++ "LIMIT 1")%string.
Proof.
  intros self query n w Hkw. split; [|reflexivity].
  destruct (execute_query_submits self query (Some n) true w) as [later H].
  exists later. rewrite H. unfold query_to_run, _maybe_wrap_with_limit.
  rewrite search_strip_trailing_semicolon, Hkw. reflexivity.
Qed.

Lemma C7_witness :
  _NON_WRAPPABLE_PREFIX_search " select a from t ;" = false
  /\ (exists later,
        calls (snd (execute_query demo_client " select a from t ;" (Some 25) true
                      demo_world))
        = calls demo_world
          ++ Call_start_query_execution
               ("SELECT * FROM (" ++ PyStr.nl ++ "select a from t" ++ PyStr.nl
                ++ ") AS _q" ++ PyStr.nl ++ "LIMIT 25")%string
               (database demo_client) (workgroup demo_client) :: later).
Proof.
  split; [reflexivity|].
  exact (proj1 (C7_wrappable_sent_wrapped demo_client " select a from t ;" 25
                  demo_world eq_refl)).
Defined.

(** ** The loops never stop for want of turns

    A loop is given one turn more than the script has replies for it, and
    every turn that goes round again consumes a reply: any larger number of
    turns gives the same run. *)

Lemma wait_loop_turns self id start n1 :
  forall n2 w,
    (length (execution_replies w) < n1)%nat ->
    (length (execution_replies w) < n2)%nat ->
    wait_loop self n1 id start w = wait_loop self n2 id start w.
Proof.
  induction n1 as [|n1 IH]; intros n2 w H1 H2; [lia|].
  destruct n2 as [|n2]; [lia|].
  destruct w as [ck so es rr cs]. cbn [wait_loop].
  unfold bind at 1 3, time_time. cbn -[Z.gtb Z.sub is_terminal wait_loop].
  destruct ck as [|t ck]; [reflexivity|].
  cbn -[Z.gtb Z.sub is_terminal wait_loop].
  destruct (t - start >? timeout self); [reflexivity|].
  unfold bind at 1 3, get_query_execution.
  cbn -[Z.gtb Z.sub is_terminal wait_loop] in *.
  destruct es as [|[d|ex] es]; cbn -[Z.gtb Z.sub is_terminal wait_loop];
    try reflexivity.
  destruct (is_terminal (State ex)); [reflexivity|].
  unfold bind, time_sleep. cbn -[wait_loop].
  apply IH; simpl in *; lia.
Qed.

Lemma fetch_loop_turns self id max n1 :
  forall n2 cols rs tok first w,
    (length (results_replies w) < n1)%nat ->
    (length (results_replies w) < n2)%nat ->
    fetch_loop self n1 id max cols rs tok first w
    = fetch_loop self n2 id max cols rs tok first w.
Proof.
  induction n1 as [|n1 IH]; intros n2 cols rs tok first w H1 H2; [lia|].
  destruct n2 as [|n2]; [lia|].
  cbn [fetch_loop]. destruct (cap_reached max rs); [reflexivity|].
  destruct w as [ck so es rr cs].
  unfold bind at 1 2, get_query_results. cbn -[fetch_loop convert_rows] in *.
  destruct rr as [|[d|page] rr]; cbn -[fetch_loop convert_rows];
    try reflexivity.
  destruct (convert_rows _ _ _ _); [reflexivity|].
  destruct (_ || _); [reflexivity|].
  apply IH; simpl in *; lia.
Qed.

(** ** The completion poller *)

Lemma wait_loop_run self id start turns w :
  (length (execution_replies w) < turns)%nat ->
  fst (wait_loop self turns id start w)
  = poll_outcome self id start (clock w) (execution_replies w)
  /\ exists l, poll_log id (poll_interval self) l
               /\ calls (snd (wait_loop self turns id start w)) = calls w ++ l.
Proof.
  revert w. induction turns as [|n IH]; intros w Hlen; [lia|].
  destruct w as [ts so es rs cs]. simpl in Hlen.
  destruct ts as [|t ts].
  { split; [reflexivity|]. exists [Call_time]. split; [constructor | reflexivity]. }
  cbn -[Z.gtb Z.sub is_terminal].
  unfold bind at 1. cbn -[Z.gtb Z.sub is_terminal wait_loop].
  destruct (t - start >? timeout self) eqn:Hgt.
  { split; [reflexivity|]. exists [Call_time]. split; [constructor | reflexivity]. }
  unfold bind at 1. unfold get_query_execution.
  cbn -[Z.gtb Z.sub is_terminal wait_loop].
  destruct es as [|[d|ex] es]; cbn -[Z.gtb Z.sub is_terminal wait_loop].
  - split; [reflexivity|]. exists [Call_time; Call_get_query_execution id].
    split; [constructor|]. now rewrite <- app_assoc.
  - split; [reflexivity|]. exists [Call_time; Call_get_query_execution id].
    split; [constructor|]. now rewrite <- app_assoc.
  - destruct (is_terminal (State ex)) eqn:Hterm.
    + split; [reflexivity|]. exists [Call_time; Call_get_query_execution id].
      split; [constructor|]. cbn. now rewrite <- app_assoc.
    + unfold bind at 1. cbn -[Z.gtb Z.sub is_terminal wait_loop].
      match goal with |- context [wait_loop self n id start ?w1] =>
        destruct (IH w1) as [Hout [l [Hl Hcalls]]]; [simpl in *; lia|] end.
      split; [exact Hout|].
      exists (Call_time :: Call_get_query_execution id
                :: Call_sleep (poll_interval self) :: l).
      split; [constructor; exact Hl|].
      rewrite Hcalls. cbn. rewrite <- !app_assoc. reflexivity.
Qed.


Lemma is_terminal_cases (s : string) :
  is_terminal s = true ->
  s = "SUCCEEDED"%string \/ s = "FAILED"%string \/ s = "CANCELLED"%string.
Proof.
  unfold is_terminal. rewrite !orb_true_iff, !String.eqb_eq. tauto.
Qed.

Lemma poll_outcome_return self id start ts es s :
  poll_outcome self id start ts es = Return s ->
  is_terminal s = true /\ exists ex, In (inr ex) es /\ State ex = s.
Proof.
  revert es. induction ts as [|t ts IH]; intros es; simpl; [discriminate|].
  destruct (t - start >? timeout self); [discriminate|].
  destruct es as [|[d|ex] es]; try discriminate.
  destruct (is_terminal (State ex)) eqn:Hterm.
  - intros [= <-]. split; [exact Hterm|]. exists ex. simpl. auto.
  - intros H. destruct (IH es H) as [Ht [ex' [Hin Hs]]].
    split; [exact Ht|]. exists ex'. simpl. auto.
Qed.

(** The poller on a script whose clock starts with [t0]. *)
Lemma wait_for_completion_run self id w t0 ts :
  clock w = t0 :: ts ->
  fst (_wait_for_completion self id w)
  = poll_outcome self id t0 ts (execution_replies w)
  /\ exists l, poll_log id (poll_interval self) l
               /\ calls (snd (_wait_for_completion self id w))
                  = calls w ++ Call_time :: l.
Proof.
  intros Hclock. unfold _wait_for_completion, bind at 1, time_time.
  destruct w as [c so es rs cs]. simpl in Hclock. subst c.
  cbn -[wait_loop].
  match goal with |- context [wait_loop self ?n id t0 ?w1] =>
    destruct (wait_loop_run self id t0 n w1) as [Hout [l [Hl Hcalls]]];
      [simpl; lia|] end.
  split; [exact Hout|]. exists l. split; [exact Hl|].
  rewrite Hcalls. cbn. rewrite <- app_assoc. reflexivity.
Qed.





(** ** The result paginator *)

Lemma cap_reached_true m rs :
  cap_reached (Some m) rs = true <-> m <= Z.of_nat (length rs).
Proof. simpl. apply Z.geb_le. Qed.

Lemma cap_reached_false m rs :
  cap_reached (Some m) rs = false <-> Z.of_nat (length rs) < m.
Proof.
  simpl. rewrite Z.geb_leb. apply Z.leb_gt.
Qed.

Lemma convert_rows_ok max cols data rs rs' :
  convert_rows max cols data rs = inr rs' ->
  cap_reached max rs = false ->
  exists ds,
    rs' = rs ++ ds
    /\ Forall2 (decodes cols) (firstn (length ds) data) ds
    /\ (length ds <= length data)%nat
    /\ (cap_reached max rs' = false -> length ds = length data)
    /\ (cap_reached max rs' = true ->
        forall m, max = Some m -> Z.of_nat (length rs') = m).
Proof.
  revert rs. induction data as [|raw data IH]; intros rs Hconv Hcap; simpl in Hconv.
  - injection Hconv as <-. exists []. rewrite app_nil_r.
    repeat split; auto. intros H. congruence.
  - destruct (decode_row cols raw) as [e|d] eqn:Hd; [discriminate|].
    destruct (cap_reached max (rs ++ [d])) eqn:Hcap1.
    + injection Hconv as <-. exists [d]. repeat split; simpl.
      * constructor; [exact Hd | constructor].
      * lia.
      * congruence.
      * intros _ m ->. apply cap_reached_true in Hcap1.
        apply cap_reached_false in Hcap. rewrite length_app in *. simpl in *. lia.
    + destruct (IH _ Hconv Hcap1) as [ds [-> [Hf [Hle [Hfull Hexact]]]]].
      assert (Heq : (rs ++ [d]) ++ ds = rs ++ d :: ds)
        by (rewrite <- app_assoc; reflexivity).
      rewrite Heq in *. exists (d :: ds). simpl. repeat split.
      * constructor; [exact Hd | exact Hf].
      * lia.
      * intros H. rewrite (Hfull H). reflexivity.
      * exact Hexact.
Qed.

Lemma fetch_loop_ok self turns id max cols rs tok first w cols' rs' w' :
  fetch_loop self turns id max cols rs tok first w = (Return (cols', rs'), w') ->
  cap_reached max rs = false ->
  exists page later ds,
    results_replies w = inr page :: later
    /\ cols' = (if first then map label_or_name (ColumnInfos page) else cols)
    /\ rs' = rs ++ ds
    /\ Forall2 (decodes cols')
         (firstn (length ds) (remote_data_rows first (results_replies w))) ds
    /\ (length ds <= length (remote_data_rows first (results_replies w)))%nat
    /\ (cap_reached max rs' = false ->
        length ds = length (remote_data_rows first (results_replies w)))
    /\ (cap_reached max rs' = true ->
        forall m, max = Some m -> Z.of_nat (length rs') = m).
Proof.
  revert cols rs tok first w.
  induction turns as [|n IH]; intros cols rs tok first w Hrun Hcap;
    [discriminate|].
  cbn [fetch_loop] in Hrun. rewrite Hcap in Hrun.
  unfold bind at 1, get_query_results in Hrun.
  destruct w as [ck so es rr cs]. cbn [results_replies log] in *.
  destruct rr as [|[detail|page] later]; cbn in Hrun; try discriminate.
  set (cols1 := if first then map label_or_name (ColumnInfos page) else cols) in *.
  fold (page_data_rows first page) in Hrun.
  destruct (convert_rows max cols1 (page_data_rows first page) rs)
    as [e|rs1] eqn:Hconv; [discriminate|].
  destruct (convert_rows_ok _ _ _ _ _ Hconv Hcap)
    as [ds1 [-> [Hf1 [Hle1 [Hfull1 Hexact1]]]]].
  exists page, later. cbn [remote_data_rows].
  destruct (token_truthy (NextToken page)) eqn:Htok; cbn [negb orb] in Hrun.
  - destruct (cap_reached max (rs ++ ds1)) eqn:Hcap1.
    + injection Hrun as <- <- <-. exists ds1. repeat split; auto.
      * rewrite firstn_app. replace (length ds1 - _)%nat with 0%nat by lia.
        rewrite firstn_O, app_nil_r. exact Hf1.
      * rewrite length_app. lia.
      * congruence.
    + destruct (IH _ _ _ _ _ Hrun Hcap1)
        as [page2 [later2 [ds2 [Hrep [-> [-> [Hf2 [Hle2 [Hfull2 Hexact2]]]]]]]]].
      cbn [results_replies] in *. specialize (Hfull1 eq_refl).
      exists (ds1 ++ ds2). rewrite !length_app, <- app_assoc. repeat split.
      * rewrite firstn_app.
        replace (length ds1 + length ds2 - _)%nat with (length ds2) by lia.
        rewrite firstn_all2 by lia. apply Forall2_app; [|exact Hf2].
        rewrite Hfull1, firstn_all in Hf1. exact Hf1.
      * lia.
      * intros H. rewrite app_assoc in H. rewrite (Hfull2 H). lia.
      * intros H m Hm. rewrite app_assoc in H.
        rewrite <- (Hexact2 H m Hm), !length_app. lia.
  - injection Hrun as <- <- <-. exists ds1. rewrite app_nil_r.
    repeat split; auto.
Qed.

Lemma fetch_results_inv self id max w qr w' :
  _fetch_results self id max w = (Return qr, w') ->
  exists w1 ex later,
    paginate self id max w = (Return (columns qr, rows qr), w1)
    /\ execution_replies w1 = inr ex :: later
    /\ statistics qr = ExecStatistics ex
    /\ state qr = "SUCCEEDED"%string
    /\ query_execution_id qr = id.
Proof.
  unfold _fetch_results, bind at 1.
  destruct (paginate self id max w) as [[[cols rs]|e|] w1]; try discriminate.
  unfold bind, get_query_execution. cbn.
  destruct (execution_replies w1) as [|[d|ex] later] eqn:Hex; cbn;
    try discriminate.
  intros [= <- <-]. exists w1, ex, later. cbn. auto.
Qed.

(** What a completed pagination holds: nothing when the cap is reached
    before the first request; otherwise the decodings, against the columns
    of the first page, of a prefix of the data rows served. *)
Lemma paginate_ok self id max w cols rs w1 :
  paginate self id max w = (Return (cols, rs), w1) ->
  (cap_reached max [] = true /\ cols = [] /\ rs = [])
  \/ (cap_reached max [] = false
      /\ Forall2 (decodes cols)
           (firstn (length rs) (remote_data_rows true (results_replies w))) rs
      /\ (cap_reached max rs = false ->
          length rs = length (remote_data_rows true (results_replies w)))
      /\ (cap_reached max rs = true ->
          forall m, max = Some m -> Z.of_nat (length rs) = m)).
Proof.
  unfold paginate. intros Hrun.
  destruct (cap_reached max []) eqn:Hcap.
  - left. cbn [fetch_loop] in Hrun. rewrite Hcap in Hrun.
    injection Hrun as <- <- _. auto.
  - right. split; [reflexivity|].
    destruct (fetch_loop_ok _ _ _ _ _ _ _ _ _ _ _ _ Hrun Hcap)
      as [page [later [ds [_ [_ [-> [Hf [_ [Hfull Hexact]]]]]]]]].
    simpl app in *. auto.
Qed.

(** ** C4: the row cap *)

(** C4: a successful fetch with row cap [N], the remote result holding at
    least [N] data rows, returns exactly [N] row records: the decodings of
    the first [N] data rows, a list that starts after the first row of the
    first page, over however many pages. *)
Theorem C4_cap_gives_exactly_N_rows :
  forall (self : AthenaClient) (id : string) (N : nat) (w w' : World)
         (qr : QueryResult),
    _fetch_results self id (Some (Z.of_nat N)) w = (Return qr, w') ->
    (N <= length (remote_data_rows true (results_replies w)))%nat ->
    length (rows qr) = N
    /\ Forall2 (decodes (columns qr))
         (firstn N (remote_data_rows true (results_replies w))) (rows qr).
Proof.
  intros self id N w w' qr Hrun Havail.
  destruct (fetch_results_inv _ _ _ _ _ _ Hrun) as [w1 [ex [later [Hpag _]]]].
  destruct (paginate_ok _ _ _ _ _ _ _ Hpag)
    as [[Hcap [_ Hrs]]|[Hcap [Hf [Hfull Hexact]]]].
  - apply cap_reached_true in Hcap. simpl in Hcap.
    assert (N = 0%nat) by lia. subst N. rewrite Hrs. split; [reflexivity|].
    constructor.
  - assert (Hlen : length (rows qr) = N).
    { destruct (cap_reached (Some (Z.of_nat N)) (rows qr)) eqn:Hc.
      - specialize (Hexact eq_refl _ eq_refl). lia.
      - specialize (Hfull eq_refl). apply cap_reached_false in Hc. lia. }
    split; [exact Hlen|]. rewrite Hlen in Hf. exact Hf.
Qed.

Lemma C4_witness :
  exists qr w',
    _fetch_results demo_client "q-1" (Some 2) two_page_world = (Return qr, w')
    /\ (2 <= length (remote_data_rows true (results_replies two_page_world)))%nat
    /\ length (rows qr) = 2%nat.
Proof.
  eexists; eexists.
  split; [vm_compute; reflexivity|].
  split; [vm_compute; lia|].
  refine (proj1 (C4_cap_gives_exactly_N_rows demo_client "q-1" 2 two_page_world
                   _ _ _ _)).
  - vm_compute. reflexivity.
  - vm_compute. lia.
Defined.

(** ** C1: the statistics lookup *)

(** C1 fails as stated: when the statistics lookup raises after a completed
    pagination, [_fetch_results] raises too and returns no QueryResult. *)
Lemma C1_counterexample :
  (exists page, fst (paginate demo_client "q-1" None stats_down_world) = Return page)
  /\ fst (_fetch_results demo_client "q-1" None stats_down_world)
     = Raise (ServiceError "ThrottlingException")
  /\ ~ (exists qr, fst (_fetch_results demo_client "q-1" None stats_down_world)
                   = Return qr).
Proof.
  split; [eexists; vm_compute; reflexivity|].
  split; [reflexivity|]. intros [qr H]. vm_compute in H. discriminate H.
Qed.

(** C1 (amended): after a completed pagination the QueryResult with its
    columns and rows is returned when the statistics lookup answers, its
    statistics field being absent when the answer carries no statistics; a
    failure of the statistics lookup propagates to the caller, as a failure
    during row fetching does. *)
Theorem C1_statistics_lookup :
  forall (self : AthenaClient) (id : string) (max_rows : option Z) (w : World),
    (forall cols rs w1,
        paginate self id max_rows w = (Return (cols, rs), w1) ->
        (forall ex later,
            execution_replies w1 = inr ex :: later ->
            fst (_fetch_results self id max_rows w)
            = Return {| columns := cols; rows := rs; query_execution_id := id;
                        state := "SUCCEEDED";
                        statistics := ExecStatistics ex |})
        /\ (forall detail later,
               execution_replies w1 = inl detail :: later ->
               fst (_fetch_results self id max_rows w)
               = Raise (ServiceError detail)))
    /\ (forall e w1,
           paginate self id max_rows w = (Raise e, w1) ->
           _fetch_results self id max_rows w = (Raise e, w1))
    /\ (forall detail later,
           results_replies w = inl detail :: later ->
           cap_reached max_rows [] = false ->
           fst (_fetch_results self id max_rows w) = Raise (ServiceError detail)).
Proof.
  intros self id max_rows w. split; [|split].
  - intros cols rs w1 Hpag. split.
    + intros ex later Hex. unfold _fetch_results, bind at 1. rewrite Hpag.
      unfold bind, get_query_execution. cbn. rewrite Hex. reflexivity.
    + intros detail later Hex. unfold _fetch_results, bind at 1. rewrite Hpag.
      unfold bind, get_query_execution. cbn. rewrite Hex. reflexivity.
  - intros e w1 Hpag. unfold _fetch_results, bind at 1. rewrite Hpag. reflexivity.
  - intros detail later Hrep Hcap. unfold _fetch_results, bind at 1, paginate.
    cbn [fetch_loop]. rewrite Hcap. unfold bind at 1, get_query_results.
    cbn. rewrite Hrep. reflexivity.
Qed.

Lemma C1_witness :
  (exists w1,
      paginate demo_client "q-1" None two_page_world
      = (Return (["id"; "city"]%string,
                 [[("id", Some "1"); ("city", Some "Pune")];
                  [("id", Some "2"); ("city", None)];
                  [("id", Some "3"); ("city", Some "Agra")]]%string), w1)
      /\ execution_replies w1 = [inr succeeded])
  /\ fst (_fetch_results demo_client "q-1" None two_page_world)
     = Return {| columns := ["id"; "city"]%string;
                 rows := [[("id", Some "1"); ("city", Some "Pune")];
                          [("id", Some "2"); ("city", None)];
                          [("id", Some "3"); ("city", Some "Agra")]]%string;
                 query_execution_id := "q-1";
                 state := "SUCCEEDED";
                 statistics := Some demo_stats |}.
Proof.
  split; [eexists; split; vm_compute; reflexivity|].
  refine (proj1 (proj1 (C1_statistics_lookup demo_client "q-1" None two_page_world)
                   _ _ _ _) succeeded [] _).
  - vm_compute. reflexivity.
  - reflexivity.
Defined.

(** ** C10: indexing the column list *)

Lemma decode_cells_total cols cells :
  forall i d0,
    (i + length cells <= length cols)%nat ->
    exists d, decode_cells cols i cells d0 = inr d.
Proof.
  induction cells as [|cell cells IH]; intros i d0 Hlen; simpl in *.
  - eauto.
  - destruct (nth_error cols i) as [name|] eqn:Hnth.
    + apply IH. lia.
    + apply nth_error_None in Hnth. lia.
Qed.

Lemma decode_cells_faults cols cells :
  forall i d0,
    (i <= length cols)%nat ->
    (length cols < i + length cells)%nat ->
    decode_cells cols i cells d0 = inl IndexError.
Proof.
  induction cells as [|cell cells IH]; intros i d0 Hi Hlen; simpl in *.
  - lia.
  - destruct (nth_error cols i) as [name|] eqn:Hnth; [|reflexivity].
    assert (i < length cols)%nat by (apply nth_error_Some; congruence).
    apply IH; lia.
Qed.

Lemma convert_rows_total max cols data :
  forall rs,
    Forall (fun raw => (length (row_cells raw) <= length cols)%nat) data ->
    exists rs', convert_rows max cols data rs = inr rs'.
Proof.
  induction data as [|raw data IH]; intros rs Hall; simpl.
  - eauto.
  - inversion Hall as [|? ? Hraw Hrest]; subst.
    destruct (decode_cells_total cols (row_cells raw) 0 [] Hraw) as [d Hd].
    unfold decode_row. rewrite Hd.
    destruct (cap_reached max (rs ++ [d])); eauto.
Qed.

(** C10: row decoding indexes the column list by cell position with no
    bounds check.  A page whose data rows each carry at most as many cells
    as there are declared columns is decoded without a fault; a row with
    more cells than declared columns faults with IndexError, and the fetch
    of a first page holding such a row raises it. *)
Theorem C10_decoding_bounds :
  (forall max_rows cols data rs,
      Forall (fun raw => (length (row_cells raw) <= length cols)%nat) data ->
      exists rs', convert_rows max_rows cols data rs = inr rs')
  /\ (forall cols raw,
         (length cols < length (row_cells raw))%nat ->
         decode_row cols raw = inl IndexError)
  /\ fst (_fetch_results demo_client "q-1" None wide_row_world) = Raise IndexError.
Proof.
  split; [|split].
  - intros max_rows cols data rs Hall. apply convert_rows_total. exact Hall.
  - intros cols raw Hlen. unfold decode_row.
    apply decode_cells_faults; simpl; lia.
  - reflexivity.
Qed.

Lemma C10_witness :
  Forall (fun raw => (length (row_cells raw) <= length ["id"; "city"]%string)%nat)
    (tl (Rows demo_page))
  /\ (exists rs', convert_rows None ["id"; "city"]%string (tl (Rows demo_page)) []
                  = inr rs')
  /\ decode_row ["id"]%string (row_of [text_cell "1"; text_cell "Pune"])
     = inl IndexError.
Proof.
  assert (H : Forall (fun raw => (length (row_cells raw)
                                  <= length ["id"; "city"]%string)%nat)
                (tl (Rows demo_page))).
  { repeat constructor. }
  split; [exact H|]. split.
  - exact (proj1 C10_decoding_bounds None ["id"; "city"]%string
             (tl (Rows demo_page)) [] H).
  - apply (proj1 (proj2 C10_decoding_bounds)). simpl. lia.
Defined.

(** *** The paginator returns

    On a script that opens with pages, the last without a truthy token, each
    row with no more cells than the first page declares columns, and whose
    statistics lookup answers, the fetch returns a QueryResult. *)

Lemma fetch_loop_returns self id max colsF (pages : list ResultsPage) :
  forall turns cols rs tok (first : bool) rest w,
    results_replies w = map inr pages ++ rest ->
    chain_ends pages ->
    (length (results_replies w) < turns)%nat ->
    (forall page, hd_error pages = Some page ->
                  colsF = if first then map label_or_name (ColumnInfos page)
                          else cols) ->
    Forall (fun page =>
              Forall (fun raw => (length (row_cells raw) <= length colsF)%nat)
                (Rows page)) pages ->
    exists cols' rs' w',
      fetch_loop self turns id max cols rs tok first w = (Return (cols', rs'), w')
      /\ execution_replies w' = execution_replies w.
Proof.
  induction pages as [|page pages IH];
    intros turns cols rs tok first rest w Hrep Hend Hturns Hcols Hall;
    [contradiction|].
  destruct turns as [|n]; [lia|]. cbn [fetch_loop].
  destruct (cap_reached max rs); [unfold ret; eauto|].
  destruct w as [ck so es rr cs]. cbn [results_replies execution_replies] in *.
  subst rr. unfold bind at 1, get_query_results. cbn -[fetch_loop convert_rows].
  rewrite <- (Hcols page eq_refl).
  inversion Hall as [|? ? Hpage Hrest]; subst.
  assert (Hdata : Forall (fun raw => (length (row_cells raw) <= length colsF)%nat)
                    (if first then tl (Rows page) else Rows page)).
  { destruct first; [|exact Hpage].
    destruct (Rows page); [constructor|]. inversion Hpage; assumption. }
  destruct (convert_rows_total max colsF _ rs Hdata) as [rs1 Hconv].
  rewrite Hconv.
  destruct (negb (token_truthy (NextToken page)) || cap_reached max rs1) eqn:Hexit;
    [unfold ret; eauto|].
  apply orb_false_iff in Hexit as [Htok _]. apply negb_false_iff in Htok.
  destruct pages as [|page2 pages]; [simpl in Hend; congruence|].
  match goal with |- context [fetch_loop self n id max colsF rs1 ?t false ?w1] =>
    destruct (IH n colsF rs1 t false rest w1) as [cols' [rs' [w' [Hrun Hex]]]]
  end; try reflexivity; try assumption.
  - simpl in *. lia.
  - exists cols', rs', w'. split; [exact Hrun | exact Hex].
Qed.

Lemma fetch_results_returns self id max (pages : list ResultsPage) rest ex later w :
  results_replies w = map inr pages ++ rest ->
  chain_ends pages ->
  Forall (fun page =>
            Forall (fun raw =>
                      (length (row_cells raw)
                       <= length (match pages with
                                  | [] => []
                                  | first :: _ => ColumnInfos first
                                  end))%nat)
              (Rows page)) pages ->
  execution_replies w = inr ex :: later ->
  exists qr w', _fetch_results self id max w = (Return qr, w').
Proof.
  intros Hrep Hend Hall Hex.
  destruct pages as [|page0 pages]; [contradiction|].
  destruct (fetch_loop_returns self id max (map label_or_name (ColumnInfos page0))
              (page0 :: pages) (S (length (results_replies w))) [] [] None true
              rest w Hrep Hend) as [cols' [rs' [w1 [Hrun Hex1]]]].
  - lia.
  - intros page [= <-]. reflexivity.
  - rewrite length_map. exact Hall.
  - unfold _fetch_results, bind at 1, paginate. rewrite Hrun.
    unfold bind, get_query_execution. cbn. rewrite Hex1, Hex. cbn.
    do 2 eexists. reflexivity.
Qed.

(** ** C2: the keys of a row record *)

Lemma dict_set_fresh (d : dict) (k : string) (v : pyvalue) :
  ~ In k (Dict.keys d) -> Dict.set d k v = d ++ [(k, v)].
Proof.
  induction d as [|[k' v'] d IH]; simpl; intros Hnot; [reflexivity|].
  destruct (String.eqb k' k) eqn:Heq.
  - apply String.eqb_eq in Heq. tauto.
  - rewrite IH by tauto. reflexivity.
Qed.

Lemma nth_error_firstn_snoc {A} (l : list A) (i : nat) (x : A) :
  nth_error l i = Some x -> firstn (S i) l = firstn i l ++ [x].
Proof.
  revert i. induction l as [|a l IH]; intros [|i] H; simpl in *; try discriminate.
  - injection H as ->. reflexivity.
  - rewrite (IH i H). reflexivity.
Qed.

Lemma nodup_nth_fresh {A} (l : list A) (i : nat) (x : A) :
  NoDup l -> nth_error l i = Some x -> ~ In x (firstn i l).
Proof.
  intros Hnd. revert i. induction Hnd as [|a l Ha Hnd IH]; intros [|i] H;
    simpl in *; try discriminate; try tauto.
  intros [->|Hin].
  - apply Ha. eapply nth_error_In. exact H.
  - exact (IH i H Hin).
Qed.

Lemma decode_cells_keys cols cells :
  NoDup cols ->
  forall i d0 d,
    decode_cells cols i cells d0 = inr d ->
    Dict.keys d0 = firstn i cols ->
    Dict.keys d = firstn (i + length cells) cols
    /\ Dict.values d = Dict.values d0 ++ map VarCharValue cells
    /\ (i <= length cols -> i + length cells <= length cols)%nat.
Proof.
  intros Hnd. induction cells as [|cell cells IH]; intros i d0 d Hdec Hkeys;
    simpl in Hdec.
  - injection Hdec as <-. rewrite Nat.add_0_r, app_nil_r. auto.
  - destruct (nth_error cols i) as [name|] eqn:Hnth; [|discriminate].
    assert (Hfresh : ~ In name (Dict.keys d0)).
    { rewrite Hkeys. apply nodup_nth_fresh; assumption. }
    rewrite (dict_set_fresh _ _ _ Hfresh) in Hdec.
    destruct (IH (S i) _ d Hdec) as [Hk [Hv Hle]].
    { unfold Dict.keys in *. rewrite map_app, Hkeys. simpl.
      symmetry. apply nth_error_firstn_snoc. exact Hnth. }
    assert (i < length cols)%nat by (apply nth_error_Some; congruence).
    simpl length. rewrite Nat.add_succ_r. split; [exact Hk|]. split.
    + rewrite Hv. unfold Dict.values. rewrite map_app, <- app_assoc. reflexivity.
    + intros _. apply Hle. lia.
Qed.

(** A decoded row, column names being distinct: its keys are the names of
    the first columns, one per cell, and its values the cells' optional
    texts, None for a cell without one. *)
Lemma decode_row_keys cols raw d :
  NoDup cols ->
  decodes cols raw d ->
  Dict.keys d = firstn (length (row_cells raw)) cols
  /\ Dict.values d = map VarCharValue (row_cells raw)
  /\ (length (row_cells raw) <= length cols)%nat.
Proof.
  intros Hnd Hdec.
  destruct (decode_cells_keys cols (row_cells raw) Hnd 0 [] d Hdec eq_refl)
    as [Hk [Hv Hle]].
  split; [exact Hk|]. split; [exact Hv|]. apply Hle. lia.
Qed.

(** C2 fails as stated: a row served with fewer cells than there are
    declared columns becomes a record with fewer keys than the column
    list. *)
Lemma C2_counterexample :
  exists qr,
    fst (_fetch_results demo_client "q-1" None describe_world) = Return qr
    /\ columns qr = ["col_name"; "data_type"; "comment"]%string
    /\ map Dict.keys (rows qr) = [["col_name"]; ["col_name"]]%string
    /\ ~ Forall (fun d => Dict.keys d = columns qr) (rows qr).
Proof.
  eexists. split; [vm_compute; reflexivity|]. cbn [columns rows].
  split; [reflexivity|]. split; [reflexivity|].
  intros H. inversion H as [|? ? Hd _]. discriminate Hd.
Qed.

(** C2 (amended): in every QueryResult produced by the paginator with
    distinct column names, each row record is keyed by declared column
    names in declared order, one key per cell the service sent for the row:
    the first as many declared columns as the row has cells.  A cell without
    a value appears as an explicit None under its key.  A row served
    with exactly one cell per declared column has exactly the declared
    columns as keys; no row record has more keys than the column list. *)
Theorem C2_row_keys :
  forall (self : AthenaClient) (id : string) (max_rows : option Z)
         (w w' : World) (qr : QueryResult),
    _fetch_results self id max_rows w = (Return qr, w') ->
    NoDup (columns qr) ->
    Forall2
      (fun raw d =>
         Dict.keys d = firstn (length (row_cells raw)) (columns qr)
         /\ Dict.values d = map VarCharValue (row_cells raw)
         /\ (length (Dict.keys d) <= length (columns qr))%nat
         /\ (length (row_cells raw) = length (columns qr) ->
             Dict.keys d = columns qr))
      (firstn (length (rows qr)) (remote_data_rows true (results_replies w)))
      (rows qr).
Proof.
  intros self id max_rows w w' qr Hrun Hnd.
  destruct (fetch_results_inv _ _ _ _ _ _ Hrun) as [w1 [ex [later [Hpag _]]]].
  assert (Hf : Forall2 (decodes (columns qr))
                 (firstn (length (rows qr))
                    (remote_data_rows true (results_replies w))) (rows qr)).
  { destruct (paginate_ok _ _ _ _ _ _ _ Hpag) as [[_ [_ Hrs]]|[_ [Hf _]]].
    - rewrite Hrs. constructor.
    - exact Hf. }
  eapply Forall2_impl; [|exact Hf].
  intros raw d Hdec. destruct (decode_row_keys _ _ _ Hnd Hdec) as [Hk [Hv Hle]].
  split; [exact Hk|]. split; [exact Hv|]. split.
  - rewrite Hk, length_firstn. lia.
  - intros Heq. rewrite Hk, Heq. apply firstn_all.
Qed.

Lemma C2_witness :
  exists qr w',
    _fetch_results demo_client "q-1" None two_page_world = (Return qr, w')
    /\ NoDup (columns qr)
    /\ map Dict.keys (rows qr)
       = [["id"; "city"]; ["id"; "city"]; ["id"; "city"]]%string
    /\ Forall2
         (fun raw d =>
            Dict.keys d = firstn (length (row_cells raw)) (columns qr)
            /\ Dict.values d = map VarCharValue (row_cells raw)
            /\ (length (Dict.keys d) <= length (columns qr))%nat
            /\ (length (row_cells raw) = length (columns qr) ->
                Dict.keys d = columns qr))
         (firstn (length (rows qr))
            (remote_data_rows true (results_replies two_page_world)))
         (rows qr).
Proof.
  eexists; eexists.
  split; [vm_compute; reflexivity|].
  assert (Hnd : NoDup ["id"; "city"]%string).
  { constructor; [simpl; intros [H|[]]; discriminate H|].
    constructor; [simpl; tauto | constructor]. }
  split; [exact Hnd|]. split; [reflexivity|].
  exact (C2_row_keys demo_client "q-1" None two_page_world _ _ eq_refl Hnd).
Defined.

(** ** C8: run and wait *)

Lemma bind_get_query_results_first {B} kwargs (k : ResultsPage -> M B) :
  (forall page, grows (k page)) ->
  forall w, exists later,
    calls (snd (bind (get_query_results kwargs) k w))
    = calls w ++ Call_get_query_results kwargs :: later.
Proof.
  intros Hk w. unfold bind, get_query_results.
  destruct w as [ck so es rr cs]. cbn.
  destruct rr as [|[detail|page] rr]; cbn; eauto.
  match goal with |- context [k page ?w1] => destruct (Hk page w1) as [l Hl] end.
  rewrite Hl. cbn. rewrite <- app_assoc. cbn. eauto.
Qed.

(** Unless the cap is reached at once, the paginator opens with a page
    request. *)
Lemma fetch_results_first_call self id max w :
  cap_reached max [] = false ->
  exists later,
    calls (snd (_fetch_results self id max w))
    = calls w
      ++ Call_get_query_results (page_request self id max [] None true) :: later.
Proof.
  intros Hcap. unfold _fetch_results.
  set (k := fun page : list string * list dict => _).
  assert (Hk : forall page, grows (k page)).
  { intros page. unfold k. apply grows_bind; [apply grows_get_query_execution|].
    intros. apply grows_ret. }
  assert (Hin : exists later,
             calls (snd (paginate self id max w))
             = calls w
               ++ Call_get_query_results (page_request self id max [] None true)
                    :: later).
  { unfold paginate. cbn [fetch_loop]. rewrite Hcap.
    apply bind_get_query_results_first. intros page.
    destruct (convert_rows _ _ _ _); [apply grows_raise|].
    destruct (_ || _); [apply grows_ret | apply grows_fetch_loop]. }
  destruct Hin as [l1 H1]. unfold bind at 1.
  destruct (paginate self id max w) as [[page|e|] w1]; simpl in *; eauto.
  destruct (Hk page w1) as [l Hl]. rewrite Hl, H1, <- app_assoc. simpl. eauto.
Qed.

Lemma wait_for_completion_return self id w st w' :
  _wait_for_completion self id w = (Return st, w') ->
  is_terminal st = true
  /\ exists ex, In (inr ex) (execution_replies w) /\ State ex = st.
Proof.
  intros Hrun. destruct (clock w) as [|t0 ts] eqn:Hclock.
  - unfold _wait_for_completion, bind, time_time in Hrun. cbn in Hrun.
    rewrite Hclock in Hrun. discriminate.
  - destruct (wait_for_completion_run self id w t0 ts Hclock) as [Hout _].
    rewrite Hrun in Hout. simpl in Hout. symmetry in Hout.
    exact (poll_outcome_return _ _ _ _ _ _ Hout).
Qed.

(** C8: once polling has ended in a terminal state, [execute_query] goes on
    to fetch results exactly when that state is SUCCEEDED, with no status
    call in between; on FAILED or CANCELLED it makes one further status
    call and raises RuntimeError carrying the reason that call supplies.
    A result is returned only if some status reply said SUCCEEDED. *)
Theorem C8_run_and_wait :
  forall (self : AthenaClient) (query : string) (max_rows : option Z)
         (enforce_limit : bool) (w w1 w2 : World) (id st : string),
    start_query_execution (query_to_run query max_rows enforce_limit)
      (database self) (workgroup self) w = (Return id, w1) ->
    _wait_for_completion self id w1 = (Return st, w2) ->
    (st = "SUCCEEDED"%string ->
     execute_query self query max_rows enforce_limit w
     = _fetch_results self id max_rows w2
     /\ (cap_reached max_rows [] = false ->
         exists later,
           calls (snd (execute_query self query max_rows enforce_limit w))
           = calls w2
             ++ Call_get_query_results (page_request self id max_rows [] None true)
                  :: later))
    /\ (st <> "SUCCEEDED"%string ->
        (st = "FAILED"%string \/ st = "CANCELLED"%string)
        /\ forall ex later,
            execution_replies w2 = inr ex :: later ->
            fst (execute_query self query max_rows enforce_limit w)
            = Raise (RuntimeError ("Query failed: " ++ failure_reason ex)%string)
            /\ (forall reason, StateChangeReason ex = Some reason ->
                               failure_reason ex = reason)
            /\ calls (snd (execute_query self query max_rows enforce_limit w))
               = calls w2 ++ [Call_get_query_execution id])
    /\ (forall qr w',
           execute_query self query max_rows enforce_limit w = (Return qr, w') ->
           st = "SUCCEEDED"%string
           /\ state qr = "SUCCEEDED"%string
           /\ exists ex, In (inr ex) (execution_replies w1)
                         /\ State ex = "SUCCEEDED"%string).
Proof.
  intros self query max_rows enforce_limit w w1 w2 id st Hstart Hwait.
  destruct (wait_for_completion_return _ _ _ _ _ Hwait) as [Hterm [ex0 [Hin0 Hst0]]].
  assert (Hexec : execute_query self query max_rows enforce_limit w
                  = (if negb (String.eqb st "SUCCEEDED")
                     then execution <- get_query_execution id ;;
                          raise (RuntimeError
                                   ("Query failed: " ++ failure_reason execution)%string)
                     else _fetch_results self id max_rows) w2).
  { unfold execute_query. unfold bind at 1. rewrite Hstart.
    unfold bind at 1. rewrite Hwait. reflexivity. }
  split; [|split].
  - intros ->. rewrite Hexec. cbn [String.eqb negb]. split; [reflexivity|].
    simpl. intros Hcap. apply fetch_results_first_call. exact Hcap.
  - intros Hne. apply is_terminal_cases in Hterm.
    split; [tauto|]. intros ex later Hex.
    assert (Hneq : String.eqb st "SUCCEEDED" = false)
      by (apply String.eqb_neq; exact Hne).
    rewrite Hexec, Hneq. cbn [negb]. unfold bind, get_query_execution.
    cbn. rewrite Hex. cbn. split; [reflexivity|]. split; [|reflexivity].
    intros reason Hr. unfold failure_reason. rewrite Hr. reflexivity.
  - intros qr w' Hret. rewrite Hexec in Hret.
    destruct (String.eqb st "SUCCEEDED") eqn:Heq; cbn [negb] in Hret.
    + apply String.eqb_eq in Heq. split; [exact Heq|].
      destruct (fetch_results_inv _ _ _ _ _ _ Hret)
        as [w3 [ex3 [later3 [_ [_ [_ [Hs _]]]]]]].
      split; [exact Hs|]. exists ex0. split; [exact Hin0 | congruence].
    + unfold bind, get_query_execution in Hret. cbn in Hret.
      destruct (execution_replies w2) as [|[d|ex] later]; discriminate.
Qed.

Lemma C8_witness :
  exists w1 w2,
    start_query_execution (query_to_run "SELECT x FROM" None false)
      (database demo_client) (workgroup demo_client) failing_world
    = (Return "q-2"%string, w1)
    /\ _wait_for_completion demo_client "q-2" w1 = (Return "FAILED"%string, w2)
    /\ "FAILED"%string <> "SUCCEEDED"%string
    /\ execution_replies w2 = [inr failed]
    /\ fst (execute_query demo_client "SELECT x FROM" None false failing_world)
       = Raise (RuntimeError "Query failed: SYNTAX_ERROR: line 1:8").
Proof.
  eexists; eexists.
  split; [vm_compute; reflexivity|].
  split; [vm_compute; reflexivity|].
  assert (Hne : "FAILED"%string <> "SUCCEEDED"%string) by discriminate.
  split; [exact Hne|]. split; [reflexivity|].
  refine (proj1 (proj2 (proj1 (proj2
    (C8_run_and_wait demo_client "SELECT x FROM" None false failing_world _ _
       "q-2" "FAILED" _ _)) Hne) failed [] _)).
  - vm_compute. reflexivity.
  - vm_compute. reflexivity.
  - reflexivity.
Defined.

(** ** C9: the DDL text *)

Lemma col_value_text_row (c t : string) :
  col_value (Some c) (text_row c t) = if PyStr.truthy c then Some t else None.
Proof.
  unfold col_value, text_row, Dict.get_or_none. simpl.
  rewrite String.eqb_refl. reflexivity.
Qed.

Lemma ddl_lines_text_rows (c : string) (texts lines : list string) :
  ddl_lines (Some c) (map (text_row c) texts) lines = lines ++ texts.
Proof.
  revert lines. induction texts as [|t texts IH]; intros lines.
  - simpl. now rewrite app_nil_r.
  - cbn [map]. unfold text_row at 1. cbn [ddl_lines].
    fold (text_row c t). rewrite col_value_text_row.
    destruct (PyStr.truthy c); cbn [py_str]; rewrite IH, <- app_assoc;
      reflexivity.
Qed.

(** C9: a successful DDL fetch returns the texts of the single returned
    column, row by row in order, joined with newlines, trailing whitespace
    trimmed; with no rows it returns the empty string; the statement run
    names the table as given when it has a dot, and qualified with the
    configured database when it has none. *)
Theorem C9_show_create_table :
  forall (self : AthenaClient) (full_table_name : string) (w w1 : World)
         (result : QueryResult),
    execute_query self
      ("SHOW CREATE TABLE " ++ qualify self full_table_name)%string
      (Some 1000) false w = (Return result, w1) ->
    (rows result = [] ->
     show_create_table_fq self full_table_name w = (Return EmptyString, w1))
    /\ (forall c texts,
           columns result = [c] ->
           rows result = map (text_row c) texts ->
           show_create_table_fq self full_table_name w
           = (Return (PyStr.rstrip (PyStr.join PyStr.nl texts)), w1))
    /\ (PyStr.contains "." (PyStr.strip full_table_name) = false ->
        qualify self full_table_name
        = (database self ++ "." ++ PyStr.strip full_table_name)%string)
    /\ (PyStr.contains "." (PyStr.strip full_table_name) = true ->
        qualify self full_table_name = PyStr.strip full_table_name)
    /\ (exists later,
           calls w1
           = calls w
             ++ Call_start_query_execution
                  ("SHOW CREATE TABLE " ++ qualify self full_table_name)%string
                  (database self) (workgroup self) :: later).
Proof.
  intros self name w w1 result Hrun.
  assert (Hshow : show_create_table_fq self name w
                  = match rows result with
                    | [] => (Return EmptyString, w1)
                    | _ => (Return (PyStr.rstrip
                                      (PyStr.join PyStr.nl
                                         (ddl_lines (hd_error (columns result))
                                            (rows result) []))), w1)
                    end).
  { unfold show_create_table_fq, bind. rewrite Hrun.
    destruct (rows result); reflexivity. }
  split; [|split; [|split; [|split]]].
  - intros Hrows. rewrite Hshow, Hrows. reflexivity.
  - intros c texts Hcols Hrows. rewrite Hshow, Hrows, Hcols.
    destruct texts as [|t texts]; [reflexivity|].
    cbn [map hd_error]. change (text_row c t :: map (text_row c) texts)
      with (map (text_row c) (t :: texts)).
    rewrite ddl_lines_text_rows. reflexivity.
  - intros Hdot. unfold qualify. rewrite Hdot. reflexivity.
  - intros Hdot. unfold qualify. rewrite Hdot. reflexivity.
  - destruct (execute_query_submits self
                ("SHOW CREATE TABLE " ++ qualify self name)%string
                (Some 1000) false w) as [later H].
    rewrite Hrun in H. simpl in H. eauto.
Qed.

Lemma C9_witness :
  exists result w1,
    execute_query demo_client
      ("SHOW CREATE TABLE " ++ qualify demo_client " orders ")%string
      (Some 1000) false ddl_world = (Return result, w1)
    /\ columns result = ["createtab_stmt"%string]
    /\ PyStr.contains "." (PyStr.strip " orders ") = false
    /\ qualify demo_client " orders " = "d11_stitch.orders"%string
    /\ show_create_table_fq demo_client " orders " ddl_world
       = (Return ("CREATE EXTERNAL TABLE `d11_stitch.orders`(" ++ PyStr.nl
                  ++ "  `id` bigint)")%string, w1).
Proof.
  eexists; eexists.
  split; [vm_compute; reflexivity|].
  split; [reflexivity|]. split; [reflexivity|]. split; [reflexivity|].
  refine (proj1 (proj2
    (C9_show_create_table demo_client " orders " ddl_world _ _ _))
    "createtab_stmt"%string
    ["CREATE EXTERNAL TABLE `d11_stitch.orders`("; "  `id` bigint)"; "  "]%string
    _ _).
  - vm_compute. reflexivity.
  - reflexivity.
  - reflexivity.
Defined.

(** ** C5: the schema normaliser *)

(** C5 fails as stated: a row whose name field holds a tab and whose only
    other field is null meets both conditions of the claim, yet the
    normaliser passes it through, because the row has a second key. *)
Lemma C5_counterexample :
  exists qr,
    fst (_fetch_results demo_client "q-1" None half_null_world) = Return qr
    /\ rows qr = [[("col_name"%string, Some ("id" ++ String PyStr.tab "bigint")%string);
                   ("data_type"%string, None)]]
    /\ spec_detects_anomaly (rows qr) = true
    /\ _normalize_describe_rows qr = rows qr
    /\ _normalize_describe_rows qr <> map normalize_row (rows qr).
Proof.
  eexists. split; [vm_compute; reflexivity|].
  split; [reflexivity|]. split; [reflexivity|]. split; [reflexivity|].
  vm_compute. discriminate.
Qed.

Lemma has_tab_iff (rs : list dict) : has_tab rs = true <-> tab_in_some_name rs.
Proof.
  unfold has_tab, tab_in_some_name. rewrite existsb_exists, Exists_exists.
  reflexivity.
Qed.

Lemma has_other_key_false (row : dict) :
  has_other_key row = false
  <-> Forall (fun k => k = "col_name"%string \/ k = EmptyString) (Dict.keys row).
Proof.
  unfold has_other_key. induction (Dict.keys row) as [|k ks IH]; simpl.
  - split; [constructor | reflexivity].
  - rewrite orb_false_iff, IH, andb_false_iff, negb_false_iff, String.eqb_eq.
    split.
    + intros [[H|H] Hks]; constructor; auto.
      destruct k; [auto | discriminate].
    + intros H. inversion H as [|? ? [Hk|Hk] Hks]; subst; auto.
Qed.

Lemma has_other_cols_false (rs : list dict) :
  has_other_cols rs = false <-> only_name_keys rs.
Proof.
  unfold has_other_cols, only_name_keys. induction rs as [|row rs IH]; simpl.
  - split; [constructor | reflexivity].
  - rewrite orb_false_iff, IH, has_other_key_false. split.
    + intros [H1 H2]. constructor; assumption.
    + intros H. inversion H; subst. auto.
Qed.

Lemma nth_padded (parts : list string) (i : nat) :
  nth i (parts ++ [EmptyString; EmptyString; EmptyString]) EmptyString
  = nth i parts EmptyString.
Proof.
  destruct (Nat.lt_ge_cases i (length parts)) as [Hlt|Hge].
  - apply app_nth1. exact Hlt.
  - rewrite app_nth2 by exact Hge. rewrite (nth_overflow parts) by exact Hge.
    destruct (i - length parts)%nat as [|[|[|[|n]]]]; reflexivity.
Qed.

(** C5 (amended): the normaliser splits exactly when the rows are not
    empty, [col_name] is a declared column, some row's name field holds a
    tab, and no row has a key other than [col_name].  It then makes of
    each name field, split on tabs, a record of three whitespace-trimmed
    parts, name, type and comment, a missing part being the empty string.
    On every other input the rows are returned as they came. *)
Theorem C5_normalize_describe_rows :
  forall (result : QueryResult),
    (splits result ->
     _normalize_describe_rows result = map normalize_row (rows result))
    /\ (~ splits result -> _normalize_describe_rows result = rows result)
    /\ (forall row,
           let parts :=
             PyStr.split PyStr.tab
               (PyStr.rstrip_char PyStr.newline (name_field row)) in
           normalize_row row
           = [("col_name"%string, Some (PyStr.strip (nth 0 parts EmptyString)));
              ("data_type"%string, Some (PyStr.strip (nth 1 parts EmptyString)));
              ("comment"%string, Some (PyStr.strip (nth 2 parts EmptyString)))]).
Proof.
  intros result.
  assert (Hcol : existsb (String.eqb "col_name") (columns result) = true
                 <-> In "col_name"%string (columns result)).
  { rewrite existsb_exists. split.
    - intros [x [Hin Heq]]. apply String.eqb_eq in Heq. subst. exact Hin.
    - intros Hin. exists "col_name"%string. split; [exact Hin|].
      apply String.eqb_refl. }
  split; [|split].
  - intros [Hne [Hin [Htab Hkeys]]]. unfold _normalize_describe_rows.
    destruct (rows result) as [|row rs] eqn:Hrows; [congruence|].
    apply Hcol in Hin. apply has_tab_iff in Htab.
    apply has_other_cols_false in Hkeys. rewrite Hin, Htab, Hkeys. reflexivity.
  - intros Hnot. unfold _normalize_describe_rows.
    destruct (rows result) as [|row rs] eqn:Hrows; [reflexivity|].
    destruct (existsb (String.eqb "col_name") (columns result)) eqn:Hin;
      [|reflexivity].
    destruct (has_tab (row :: rs)) eqn:Htab; [|reflexivity].
    destruct (has_other_cols (row :: rs)) eqn:Hkeys; [reflexivity|].
    exfalso. apply Hnot. unfold splits. rewrite Hrows. split; [discriminate|].
    split; [apply Hcol; reflexivity|]. split.
    + apply has_tab_iff. exact Htab.
    + apply has_other_cols_false. exact Hkeys.
  - intros row parts. unfold normalize_row. fold parts.
    rewrite !nth_padded. reflexivity.
Qed.

Lemma describe_result_fetched :
  fst (_fetch_results demo_client "q-1" None describe_world) = Return describe_result.
Proof. reflexivity. Qed.

Lemma describe_result_splits : splits describe_result.
Proof.
  unfold splits. split; [discriminate|]. split; [simpl; auto|]. split.
  - apply has_tab_iff. reflexivity.
  - apply has_other_cols_false. reflexivity.
Defined.

Lemma C5_witness :
  splits describe_result
  /\ _normalize_describe_rows describe_result
     = [[("col_name"%string, Some "id"%string);
         ("data_type"%string, Some "bigint"%string);
         ("comment"%string, Some "primary key"%string)];
        [("col_name"%string, Some "name"%string);
         ("data_type"%string, Some "varchar"%string);
         ("comment"%string, Some EmptyString)]].
Proof.
  split; [exact describe_result_splits|].
  exact (proj1 (C5_normalize_describe_rows describe_result) describe_result_splits).
Defined.

(** * Further properties of the client and its callers *)

(** ** What a computation adds to the call log *)

Lemma emits_weaken {A} (P Q : Call -> Prop) (m : M A) :
  (forall c, P c -> Q c) -> emits P m -> emits Q m.
Proof.
  intros HPQ Hm w. destruct (Hm w) as [l [Hl HP]]. exists l. split; [exact Hl|].
  eapply Forall_impl; [exact HPQ | exact HP].
Qed.

Lemma emits_ret {A} (P : Call -> Prop) (a : A) : emits P (ret a).
Proof. intros w. exists []. simpl. rewrite app_nil_r. auto. Qed.

Lemma emits_raise {A} (P : Call -> Prop) (e : exn) : emits P (@raise A e).
Proof. intros w. exists []. simpl. rewrite app_nil_r. auto. Qed.

Lemma emits_bind {A B} (P : Call -> Prop) (m : M A) (k : A -> M B) :
  emits P m -> (forall a, emits P (k a)) -> emits P (bind m k).
Proof.
  intros Hm Hk w. unfold bind. destruct (Hm w) as [l1 [H1 HP1]].
  destruct (m w) as [[a|e|] w1]; simpl in *; eauto.
  destruct (Hk a w1) as [l2 [H2 HP2]]. exists (l1 ++ l2). split.
  - rewrite H2, H1, app_assoc. reflexivity.
  - apply Forall_app. auto.
Qed.

Lemma emits_time_time (P : Call -> Prop) : P Call_time -> emits P time_time.
Proof.
  intros HP w. unfold time_time. simpl. exists [Call_time].
  destruct (clock w); simpl; auto.
Qed.

Lemma emits_time_sleep (P : Call -> Prop) (s : Z) :
  P (Call_sleep s) -> emits P (time_sleep s).
Proof. intros HP w. simpl. eauto. Qed.

Lemma emits_get_query_execution (P : Call -> Prop) (id : string) :
  P (Call_get_query_execution id) -> emits P (get_query_execution id).
Proof.
  intros HP w. unfold get_query_execution. simpl.
  exists [Call_get_query_execution id]. destruct (execution_replies w); simpl; auto.
Qed.

Lemma emits_get_query_results (P : Call -> Prop) (kw : ResultsRequest) :
  P (Call_get_query_results kw) -> emits P (get_query_results kw).
Proof.
  intros HP w. unfold get_query_results. simpl.
  exists [Call_get_query_results kw]. destruct (results_replies w); simpl; auto.
Qed.

Lemma emits_wait_for_completion self id : emits quiet (_wait_for_completion self id).
Proof.
  assert (Hloop : forall turns start, emits quiet (wait_loop self turns id start)).
  { induction turns as [|n IH]; intros start; simpl.
    - intros w. exists []. simpl. rewrite app_nil_r. auto.
    - apply emits_bind; [apply emits_time_time; exact I|]. intros now.
      destruct (now - start >? timeout self); [apply emits_raise|].
      apply emits_bind; [apply emits_get_query_execution; exact I|]. intros r.
      destruct (is_terminal (State r)); [apply emits_ret|].
      apply emits_bind; [apply emits_time_sleep; exact I | intros _; apply IH]. }
  intros w. unfold _wait_for_completion.
  apply (emits_bind quiet time_time); [apply emits_time_time; exact I|].
  intros t. apply Hloop.
Qed.

Lemma page_request_bounds self id max rs tok first :
  page_request_ok self id max
    (Call_get_query_results (page_request self id max rs tok first)).
Proof.
  unfold page_request_ok, page_request. cbn. split; [reflexivity|].
  destruct max as [m|]; [|reflexivity].
  destruct first; lia.
Qed.

Lemma emits_fetch_loop self turns id max cols rs tok first :
  emits (page_request_ok self id max)
    (fetch_loop self turns id max cols rs tok first).
Proof.
  revert cols rs tok first.
  induction turns as [|n IH]; intros cols rs tok first; simpl.
  - intros w. exists []. simpl. rewrite app_nil_r. auto.
  - destruct (cap_reached max rs); [apply emits_ret|].
    apply emits_bind; [apply emits_get_query_results, page_request_bounds|].
    intros page. destruct (convert_rows _ _ _ _); [apply emits_raise|].
    destruct (_ || _); [apply emits_ret | apply IH].
Qed.

Lemma emits_fetch_results self id max :
  emits (page_request_ok self id max) (_fetch_results self id max).
Proof.
  unfold _fetch_results. apply emits_bind.
  - intros w. apply emits_fetch_loop.
  - intros page. apply emits_bind.
    + apply emits_get_query_execution. reflexivity.
    + intros. apply emits_ret.
Qed.

(** ** The paginator: requests, caps, and the uncapped fetch *)

(** Every remote call of a fetch is a page request or the statistics lookup,
    for the execution id given.  With a cap every page request asks for at
    least one row, at most [max(1, max_results)] rows and at most one row
    more than the cap; without a cap every page request asks for
    [max_results] rows. *)
Theorem fetch_results_calls :
  forall (self : AthenaClient) (id : string) (max_rows : option Z) (w : World),
  exists later,
    calls (snd (_fetch_results self id max_rows w)) = calls w ++ later
    /\ Forall (page_request_ok self id max_rows) later.
Proof. intros self id max_rows w. apply emits_fetch_results. Qed.

(** A cap of zero or less fetches nothing: no page is requested, only the
    statistics are looked up, and the result has no rows and no column
    names. *)
Theorem fetch_results_cap_not_positive :
  forall (self : AthenaClient) (id : string) (m : Z) (w w' : World)
         (qr : QueryResult),
    m <= 0 ->
    _fetch_results self id (Some m) w = (Return qr, w') ->
    columns qr = [] /\ rows qr = []
    /\ calls w' = calls w ++ [Call_get_query_execution id]
    /\ results_replies w' = results_replies w.
Proof.
  intros self id m w w' qr Hm Hrun.
  assert (Hcap : cap_reached (Some m) [] = true)
    by (apply cap_reached_true; simpl; lia).
  unfold _fetch_results, bind at 1, paginate in Hrun.
  cbn [fetch_loop] in Hrun. rewrite Hcap in Hrun. cbn [ret] in Hrun.
  unfold bind, get_query_execution in Hrun. cbn in Hrun.
  destruct (execution_replies w) as [|[d|ex] later]; cbn in Hrun;
    try discriminate.
  injection Hrun as <- <-. cbn. auto.
Qed.

Lemma fetch_results_cap_not_positive_witness :
  0 <= 0
  /\ _fetch_results demo_client "q-1" (Some 0) two_page_world
     = (Return {| columns := []; rows := []; query_execution_id := "q-1";
                  state := "SUCCEEDED"; statistics := Some demo_stats |},
        {| clock := []; start_replies := []; execution_replies := [];
           results_replies := [inr page_one; inr page_two];
           calls := [Call_get_query_execution "q-1"] |})
  /\ columns {| columns := []; rows := []; query_execution_id := "q-1";
                state := "SUCCEEDED"; statistics := Some demo_stats |} = [].
Proof.
  split; [lia|]. split; [reflexivity|].
  refine (proj1 (fetch_results_cap_not_positive demo_client "q-1" 0
                   two_page_world _ _ _ eq_refl)).
  lia.
Defined.

Lemma fetch_rows_at_most_cap self id m w w' qr :
  0 <= m ->
  _fetch_results self id (Some m) w = (Return qr, w') ->
  Z.of_nat (length (rows qr)) <= m.
Proof.
  intros Hm Hrun.
  destruct (fetch_results_inv _ _ _ _ _ _ Hrun) as [w1 [ex [later [Hpag _]]]].
  destruct (paginate_ok _ _ _ _ _ _ _ Hpag)
    as [[_ [_ Hrs]]|[_ [_ [_ Hexact]]]].
  - rewrite Hrs. simpl. lia.
  - destruct (cap_reached (Some m) (rows qr)) eqn:Hc.
    + rewrite (Hexact eq_refl m eq_refl). lia.
    + apply cap_reached_false in Hc. lia.
Qed.

(** A capped fetch returns as many rows as the cap or as the service
    serves, whichever is less: never more than the cap, however many rows a
    page carries, and all the rows served when they are fewer. *)
Theorem fetch_results_row_count :
  forall (self : AthenaClient) (id : string) (m : Z) (w w' : World)
         (qr : QueryResult),
    0 <= m ->
    _fetch_results self id (Some m) w = (Return qr, w') ->
    length (rows qr)
    = Nat.min (Z.to_nat m) (length (remote_data_rows true (results_replies w))).
Proof.
  intros self id m w w' qr Hm Hrun.
  destruct (fetch_results_inv _ _ _ _ _ _ Hrun) as [w1 [ex [later [Hpag _]]]].
  destruct (paginate_ok _ _ _ _ _ _ _ Hpag)
    as [[Hcap [_ Hrs]]|[_ [Hf [Hfull Hexact]]]].
  - apply cap_reached_true in Hcap. simpl in Hcap. rewrite Hrs.
    replace m with 0 by lia. reflexivity.
  - assert (Hle : (length (rows qr)
                   <= length (remote_data_rows true (results_replies w)))%nat).
    { apply Forall2_length in Hf. rewrite length_firstn in Hf. lia. }
    destruct (cap_reached (Some m) (rows qr)) eqn:Hc.
    + specialize (Hexact eq_refl m eq_refl). lia.
    + specialize (Hfull eq_refl). apply cap_reached_false in Hc. lia.
Qed.

Lemma fetch_results_row_count_witness :
  exists qr w',
    0 <= 2
    /\ _fetch_results demo_client "q-1" (Some 2) greedy_world = (Return qr, w')
    /\ length (remote_data_rows true (results_replies greedy_world)) = 5%nat
    /\ length (rows qr) = 2%nat.
Proof.
  eexists; eexists. split; [lia|]. split; [vm_compute; reflexivity|].
  split; [reflexivity|].
  refine (fetch_results_row_count demo_client "q-1" 2 greedy_world _ _ _ _).
  - lia.
  - vm_compute. reflexivity.
Defined.

Lemma fetch_uncapped_rows self id w w' qr :
  _fetch_results self id None w = (Return qr, w') ->
  Forall2 (decodes (columns qr))
    (remote_data_rows true (results_replies w)) (rows qr).
Proof.
  intros Hrun.
  destruct (fetch_results_inv _ _ _ _ _ _ Hrun) as [w1 [ex [later [Hpag _]]]].
  destruct (paginate_ok _ _ _ _ _ _ _ Hpag) as [[Hcap _]|[_ [Hf [Hfull _]]]].
  - discriminate Hcap.
  - rewrite (Hfull eq_refl), firstn_all in Hf. exact Hf.
Qed.

(** A fetch without a cap returns every data row served, page after page
    while a page carries a truthy token, decoded against the column names
    of the first page (its label where it has one, else its name). *)
Theorem fetch_results_uncapped_all_rows :
  forall (self : AthenaClient) (id : string) (w w' : World) (qr : QueryResult),
    _fetch_results self id None w = (Return qr, w') ->
    Forall2 (decodes (columns qr))
      (remote_data_rows true (results_replies w)) (rows qr)
    /\ exists page later,
         results_replies w = inr page :: later
         /\ columns qr = map label_or_name (ColumnInfos page).
Proof.
  intros self id w w' qr Hrun.
  destruct (fetch_results_inv _ _ _ _ _ _ Hrun) as [w1 [ex [later [Hpag _]]]].
  unfold paginate in Hpag.
  destruct (fetch_loop_ok _ _ _ _ _ _ _ _ _ _ _ _ Hpag eq_refl)
    as [page [later' [ds [Hrep [Hcols [Hrs [Hf [_ [Hfull _]]]]]]]]].
  simpl in Hrs. subst ds. split.
  - rewrite (Hfull eq_refl), firstn_all in Hf. exact Hf.
  - exists page, later'. auto.
Qed.

Lemma fetch_results_uncapped_all_rows_witness :
  exists qr w',
    _fetch_results demo_client "q-1" None two_page_world = (Return qr, w')
    /\ length (rows qr) = 3%nat
    /\ Forall2 (decodes (columns qr))
         (remote_data_rows true (results_replies two_page_world)) (rows qr).
Proof.
  eexists; eexists. split; [vm_compute; reflexivity|]. split; [reflexivity|].
  exact (proj1 (fetch_results_uncapped_all_rows demo_client "q-1" two_page_world
                  _ _ eq_refl)).
Defined.

(** ** The poller returns the first terminal state *)




(** ** Run and wait: what is sent, and when *)

Lemma quiet_not_submission (c : Call) : quiet c -> not_submission c.
Proof. destruct c; simpl; auto. Qed.

Lemma quiet_not_page_request (l : list Call) :
  Forall quiet l -> ~ Exists is_page_request l.
Proof.
  intros Hq Hex. apply Exists_exists in Hex as [c [Hin Hc]].
  rewrite Forall_forall in Hq. specialize (Hq c Hin).
  destruct c; simpl in *; auto.
Qed.

Lemma page_request_ok_not_submission self id max (c : Call) :
  page_request_ok self id max c -> not_submission c.
Proof. destruct c; simpl; auto. Qed.

(** One call of [execute_query] submits one statement, first of all, and
    nothing else it does is a submission.  It asks for a page of results
    only if a status reply of the service said SUCCEEDED. *)
Theorem execute_query_calls :
  forall (self : AthenaClient) (query : string) (max_rows : option Z)
         (enforce_limit : bool) (w : World),
  exists later,
    calls (snd (execute_query self query max_rows enforce_limit w))
    = calls w
      ++ Call_start_query_execution (query_to_run query max_rows enforce_limit)
           (database self) (workgroup self) :: later
    /\ Forall not_submission later
    /\ (Exists is_page_request later ->
        exists ex, In (inr ex) (execution_replies w)
                   /\ State ex = "SUCCEEDED"%string).
Proof.
  intros self query max_rows enforce_limit w.
  unfold execute_query, bind at 1, start_query_execution.
  destruct w as [ck so es rr cs]. cbn.
  destruct so as [|[d|id] so]; cbn.
  - exists []. repeat split; auto. intros H. inversion H.
  - exists []. repeat split; auto. intros H. inversion H.
  - match goal with |- context [bind (_wait_for_completion self id) ?k ?w1] =>
      set (K := k); set (w1' := w1) end.
    destruct (emits_wait_for_completion self id w1') as [l1 [H1 Q1]].
    unfold bind at 1.
    destruct (_wait_for_completion self id w1') as [[st|e|] w2] eqn:Hwait;
      cbn [fst snd] in *.
    + unfold K. destruct (String.eqb st "SUCCEEDED") eqn:Hst; cbn [negb].
      * destruct (emits_fetch_results self id max_rows w2) as [l2 [H2 Q2]].
        exists (l1 ++ l2). split; [|split].
        -- rewrite H2, H1. unfold w1'. cbn. rewrite <- !app_assoc. reflexivity.
        -- apply Forall_app. split.
           ++ eapply Forall_impl; [apply quiet_not_submission | exact Q1].
           ++ eapply Forall_impl; [apply page_request_ok_not_submission | exact Q2].
        -- intros _. apply String.eqb_eq in Hst. subst st.
           destruct (wait_for_completion_return _ _ _ _ _ Hwait) as [_ Hex].
           exact Hex.
      * match goal with |- context [calls (snd (?m w2))] =>
          assert (Hq : emits quiet m) end.
        { apply emits_bind; [apply emits_get_query_execution; exact I|].
          intros. apply emits_raise. }
        destruct (Hq w2) as [l2 [H2 Q2]].
        exists (l1 ++ l2). split; [|split].
        -- rewrite H2, H1. unfold w1'. cbn. rewrite <- !app_assoc. reflexivity.
        -- eapply Forall_impl; [apply quiet_not_submission|].
           apply Forall_app. auto.
        -- intros Hex. exfalso.
           apply (quiet_not_page_request (l1 ++ l2)); [|exact Hex].
           apply Forall_app. auto.
    + exists l1. split; [|split].
      * rewrite H1. unfold w1'. cbn. rewrite <- !app_assoc. reflexivity.
      * eapply Forall_impl; [apply quiet_not_submission | exact Q1].
      * intros Hex. exfalso. exact (quiet_not_page_request l1 Q1 Hex).
    + exists l1. split; [|split].
      * rewrite H1. unfold w1'. cbn. rewrite <- !app_assoc. reflexivity.
      * eapply Forall_impl; [apply quiet_not_submission | exact Q1].
      * intros Hex. exfalso. exact (quiet_not_page_request l1 Q1 Hex).
Qed.

Lemma keeps_pages_bind {A B} (m : M A) (k : A -> M B) :
  keeps_pages m -> (forall a, keeps_pages (k a)) -> keeps_pages (bind m k).
Proof.
  intros Hm Hk w. unfold bind. specialize (Hm w).
  destruct (m w) as [[a|e|] w1]; simpl in *; auto.
  rewrite (Hk a w1). exact Hm.
Qed.

Lemma keeps_pages_wait_for_completion self id :
  keeps_pages (_wait_for_completion self id).
Proof.
  assert (Htime : keeps_pages time_time).
  { intros w. unfold time_time. simpl. destruct (clock w); reflexivity. }
  assert (Hexec : keeps_pages (get_query_execution id)).
  { intros w. unfold get_query_execution. simpl.
    destruct (execution_replies w); reflexivity. }
  assert (Hloop : forall turns start, keeps_pages (wait_loop self turns id start)).
  { induction turns as [|n IH]; intros start; simpl.
    - intros w. reflexivity.
    - apply keeps_pages_bind; [exact Htime|]. intros now.
      destruct (now - start >? timeout self); [intros w; reflexivity|].
      apply keeps_pages_bind; [exact Hexec|]. intros r.
      destruct (is_terminal (State r)); [intros w; reflexivity|].
      apply keeps_pages_bind; [intros w; reflexivity | intros _; apply IH]. }
  intros w. unfold _wait_for_completion.
  apply (keeps_pages_bind time_time); [exact Htime | intros t; apply Hloop].
Qed.

(** A result of [execute_query] is the result of a fetch, made on the page
    replies the script started with. *)
Lemma execute_query_inv self query max_rows enforce_limit w qr w' :
  execute_query self query max_rows enforce_limit w = (Return qr, w') ->
  exists id w2,
    _fetch_results self id max_rows w2 = (Return qr, w')
    /\ results_replies w2 = results_replies w.
Proof.
  unfold execute_query, bind at 1, start_query_execution.
  destruct w as [ck so es rr cs]. cbn.
  destruct so as [|[d|id] so]; cbn; try discriminate.
  unfold bind at 1.
  match goal with |- context [_wait_for_completion self id ?w1] =>
    pose proof (keeps_pages_wait_for_completion self id w1) as Hkeep;
    destruct (_wait_for_completion self id w1) as [[st|e|] w2] end;
    try discriminate.
  cbn in Hkeep. destruct (String.eqb st "SUCCEEDED"); cbn [negb].
  - intros Hrun. exists id, w2. auto.
  - unfold bind, get_query_execution. cbn.
    destruct (execution_replies w2) as [|[d|ex] later]; discriminate.
Qed.

Lemma bind_ret_calls {A B} (m : M A) (f : A -> B) (w : World) :
  calls (snd (bind m (fun a => ret (f a)) w)) = calls (snd (m w)).
Proof. unfold bind. destruct (m w) as [[a|e|] w1]; reflexivity. Qed.

Lemma bind_ret_inv {A B} (m : M A) (f : A -> B) (w w' : World) (b : B) :
  bind m (fun a => ret (f a)) w = (Return b, w') ->
  exists a, m w = (Return a, w') /\ b = f a.
Proof.
  unfold bind. destruct (m w) as [[a|e|] w1]; try discriminate.
  intros [= <- <-]. eauto.
Qed.

(** ** Listing tables *)


Lemma dict_get_none (d : dict) (k : string) :
  ~ In k (Dict.keys d) -> Dict.get d k = None.
Proof.
  induction d as [|[k' v] d IH]; simpl; intros Hnot; [reflexivity|].
  destruct (String.eqb k' k) eqn:Heq.
  - apply String.eqb_eq in Heq. tauto.
  - apply IH. tauto.
Qed.




(** ** Describing tables *)

Lemma normalize_describe_rows_length (result : QueryResult) :
  length (_normalize_describe_rows result) = length (rows result).
Proof.
  unfold _normalize_describe_rows.
  destruct (rows result) as [|row rs]; [reflexivity|].
  destruct (negb _); [reflexivity|].
  destruct (_ || _); [reflexivity|]. apply length_map.
Qed.

(** [describe_table] sends [DESCRIBE db.table] as it is and never returns
    more than 500 schema rows, however many the service holds. *)
Theorem describe_table_at_most_500 :
  forall (self : AthenaClient) (table : string) (db : option string)
         (w w' : World) (schema : list dict),
    describe_table self table db w = (Return schema, w') ->
    (length schema <= 500)%nat
    /\ exists later,
         calls w'
         = calls w
           ++ Call_start_query_execution
                ("DESCRIBE " ++ db_or_default self db ++ "." ++ table)%string
                (database self) (workgroup self) :: later.
Proof.
  intros self table db w w' schema Hrun. unfold describe_table in Hrun.
  destruct (bind_ret_inv _ _ _ _ _ Hrun) as [qr [Hq ->]]. split.
  - rewrite normalize_describe_rows_length.
    destruct (execute_query_inv _ _ _ _ _ _ _ Hq) as [id [w2 [Hfetch _]]].
    pose proof (fetch_rows_at_most_cap self id 500 w2 w' qr) as H.
    specialize (H ltac:(lia) Hfetch). lia.
  - match type of Hq with execute_query self ?q _ _ _ = _ =>
      destruct (execute_query_submits self q (Some 500) false w) as [later H] end.
    rewrite Hq in H. simpl in H. exists later. rewrite H.
    unfold db_or_default. destruct db as [d|]; reflexivity.
Qed.

Lemma describe_table_at_most_500_witness :
  exists schema w',
    describe_table demo_client "orders" None describe_run_world
    = (Return schema, w')
    /\ (length schema <= 500)%nat
    /\ length schema = 2%nat.
Proof.
  eexists; eexists. split; [vm_compute; reflexivity|]. split; [|reflexivity].
  exact (proj1 (describe_table_at_most_500 demo_client "orders" None
                  describe_run_world _ _ eq_refl)).
Defined.

Lemma split_first_none (ch : ascii) (s : string) :
  split_first ch s = None <-> PyStr.contains ch s = false.
Proof.
  induction s as [|c s IH]; simpl; [tauto|].
  destruct (Ascii.eqb c ch); simpl.
  - split; discriminate.
  - destruct (split_first ch s) as [[a b]|].
    + split; [discriminate|]. intros H. apply IH in H. discriminate.
    + tauto.
Qed.

(** A split at the first [ch] loses nothing: the two parts and the [ch]
    between them make the string again, and the part before has no [ch]. *)
Lemma split_first_some (ch : ascii) (s before after : string) :
  split_first ch s = Some (before, after) ->
  s = (before ++ String ch after)%string /\ PyStr.contains ch before = false.
Proof.
  revert before. induction s as [|c s IH]; simpl; intros before; [discriminate|].
  destruct (Ascii.eqb c ch) eqn:Heq.
  - intros [= <- <-]. apply Ascii.eqb_eq in Heq. subst. auto.
  - destruct (split_first ch s) as [[a b]|]; [|discriminate].
    intros [= <- <-]. destruct (IH a eq_refl) as [-> Hc]. simpl.
    rewrite Heq. auto.
Qed.

Lemma describe_table_submits self table db w :
  exists later,
    calls (snd (describe_table self table db w))
    = calls w
      ++ Call_start_query_execution
           ("DESCRIBE " ++ db_or_default self db ++ "." ++ table)%string
           (database self) (workgroup self) :: later.
Proof.
  unfold describe_table. rewrite bind_ret_calls.
  match goal with |- context [execute_query self ?q _ _ _] =>
    destruct (execute_query_submits self q (Some 500) false w) as [later H] end.
  exists later. rewrite H. unfold db_or_default. destruct db; reflexivity.
Qed.

(** [describe_table_fq] describes a name with a dot as it is given, less
    surrounding whitespace, and a name without a dot in the configured
    database, as [show_create_table_fq] qualifies its name; but a name
    that starts with a dot has the configured database put before it. *)
Theorem describe_table_fq_statement :
  forall (self : AthenaClient) (full_table_name : string) (w : World),
  exists later,
    calls (snd (describe_table_fq self full_table_name w))
    = calls w
      ++ Call_start_query_execution
           ("DESCRIBE "
            ++ (if starts_with_char "." (PyStr.strip full_table_name)
                then database self ++ PyStr.strip full_table_name
                else qualify self full_table_name))%string
           (database self) (workgroup self) :: later.
Proof.
  intros self name w. unfold describe_table_fq, qualify.
  set (s := PyStr.strip name).
  destruct (split_first "." s) as [[db table]|] eqn:Hsplit.
  - destruct (split_first_some _ _ _ _ Hsplit) as [Hs Hdb].
    destruct (describe_table_submits self table (Some db) w) as [later H].
    exists later. rewrite H. do 3 f_equal.
    assert (Hdot : PyStr.contains "." s = true).
    { destruct (PyStr.contains "." s) eqn:Hc; [reflexivity|].
      apply split_first_none in Hc. congruence. }
    rewrite Hdot. cbn [negb db_or_default]. rewrite Hs.
    destruct db as [|c db]; simpl.
    + reflexivity.
    + simpl in Hdb. apply orb_false_iff in Hdb as [Hc _]. rewrite Hc. reflexivity.
  - destruct (describe_table_submits self s None w) as [later H].
    exists later. rewrite H. do 3 f_equal.
    apply split_first_none in Hsplit. rewrite Hsplit. cbn [negb db_or_default].
    destruct s as [|c s']; [reflexivity|].
    simpl in Hsplit. apply orb_false_iff in Hsplit as [Hc _].
    simpl. rewrite Hc. reflexivity.
Qed.

(** ** Sample rows *)

(** [get_sample_data] and [get_sample_data_fq] send their SELECT with the
    LIMIT written in it, unwrapped, and fetch without a client cap: the rows
    returned are all the data rows the service serves, whatever the limit
    asked for. *)
Theorem get_sample_data_rows :
  forall (self : AthenaClient) (w w' : World) (qr : QueryResult) (limit : Z),
    (forall table db,
        get_sample_data self table limit db w = (Return qr, w') ->
        Forall2 (decodes (columns qr))
          (remote_data_rows true (results_replies w)) (rows qr)
        /\ exists later,
             calls w'
             = calls w
               ++ Call_start_query_execution
                    ("SELECT * FROM " ++ db_or_default self db ++ "." ++ table
                     ++ " LIMIT " ++ PyStr.str_of_int limit)%string
                    (database self) (workgroup self) :: later)
    /\ (forall full_table_name,
           get_sample_data_fq self full_table_name limit w = (Return qr, w') ->
           Forall2 (decodes (columns qr))
             (remote_data_rows true (results_replies w)) (rows qr)
           /\ exists later,
                calls w'
                = calls w
                  ++ Call_start_query_execution
                       ("SELECT * FROM " ++ qualify self full_table_name
                        ++ " LIMIT " ++ PyStr.str_of_int limit)%string
                       (database self) (workgroup self) :: later).
Proof.
  intros self w w' qr limit.
  assert (Hgen : forall q,
             execute_query self q None false w = (Return qr, w') ->
             Forall2 (decodes (columns qr))
               (remote_data_rows true (results_replies w)) (rows qr)
             /\ exists later,
                  calls w'
                  = calls w
                    ++ Call_start_query_execution q (database self)
                         (workgroup self) :: later).
  { intros q Hq. split.
    - destruct (execute_query_inv _ _ _ _ _ _ _ Hq) as [id [w2 [Hfetch Hpages]]].
      pose proof (fetch_uncapped_rows _ _ _ _ _ Hfetch) as Hall.
      rewrite Hpages in Hall. exact Hall.
    - destruct (execute_query_submits self q None false w) as [later H].
      rewrite Hq in H. simpl in H. eauto. }
  split.
  - intros table db Hrun. apply Hgen. exact Hrun.
  - intros name Hrun. apply Hgen. exact Hrun.
Qed.

Lemma get_sample_data_rows_witness :
  exists qr w',
    get_sample_data_fq demo_client "orders" 1 sample_world = (Return qr, w')
    /\ length (rows qr) = 3%nat
    /\ Forall2 (decodes (columns qr))
         (remote_data_rows true (results_replies sample_world)) (rows qr).
Proof.
  eexists; eexists. split; [vm_compute; reflexivity|]. split; [reflexivity|].
  exact (proj1 (proj2 (get_sample_data_rows demo_client sample_world _ _ 1)
                  "orders"%string eq_refl)).
Defined.

(** ** The normaliser, once more *)

Lemma has_other_key_normalize_row (row : dict) :
  has_other_key (normalize_row row) = true.
Proof. reflexivity. Qed.

(** Normalising keeps the number of rows, and normalising what was
    normalised changes nothing: rows that were split carry the keys
    [data_type] and [comment] and are passed through the second time. *)
Theorem normalize_describe_rows_idempotent :
  forall (result : QueryResult),
    length (_normalize_describe_rows result) = length (rows result)
    /\ _normalize_describe_rows
         (with_rows result (_normalize_describe_rows result))
       = _normalize_describe_rows result.
Proof.
  intros result. split; [apply normalize_describe_rows_length|].
  unfold _normalize_describe_rows at 2 3.
  destruct (rows result) as [|row rs] eqn:Hrows; [reflexivity|].
  destruct (negb (existsb (String.eqb "col_name") (columns result))) eqn:Hcol.
  - unfold _normalize_describe_rows, with_rows. cbn [rows columns].
    rewrite Hcol. reflexivity.
  - destruct (negb (has_tab (row :: rs)) || has_other_cols (row :: rs)) eqn:Hpass.
    + unfold _normalize_describe_rows, with_rows. cbn [rows columns].
      rewrite Hcol, Hpass. reflexivity.
    + unfold _normalize_describe_rows, with_rows. cbn [rows columns map].
      rewrite Hcol.
      assert (Hother : has_other_cols (normalize_row row :: map normalize_row rs)
                       = true).
      { unfold has_other_cols. cbn [existsb].
        rewrite has_other_key_normalize_row. reflexivity. }
      rewrite Hother, orb_true_r. reflexivity.
Qed.

(** ** Stripping *)

Lemma rstrip_by_idempotent (p : ascii -> bool) (s : string) :
  PyStr.rstrip_by p (PyStr.rstrip_by p s) = PyStr.rstrip_by p s.
Proof.
  induction s as [|c s IH]; [reflexivity|].
  cbn [PyStr.rstrip_by]. destruct (PyStr.rstrip_by p s) as [|c' r] eqn:Hr.
  - destruct (p c) eqn:Hc; [reflexivity|]. simpl. rewrite Hc. reflexivity.
  - cbn [PyStr.rstrip_by]. cbn [PyStr.rstrip_by] in IH.
    destruct (PyStr.rstrip_by p r) as [|c'' r'] eqn:Hr'.
    + destruct (p c'); [discriminate|]. injection IH as <-. reflexivity.
    + rewrite IH. reflexivity.
Qed.

Lemma strip_idempotent (s : string) : PyStr.strip (PyStr.strip s) = PyStr.strip s.
Proof.
  unfold PyStr.strip.
  rewrite (clean_lstrip _ (clean_rstrip_by PyStr.isspace _ (lstrip_clean s))).
  apply rstrip_by_idempotent.
Qed.

(** [rstrip_by] on a concatenation: the right part decides. *)
Lemma rstrip_by_app (p : ascii -> bool) (x y : string) :
  PyStr.rstrip_by p (x ++ y)%string
  = match PyStr.rstrip_by p y with
    | EmptyString => PyStr.rstrip_by p x
    | r => (x ++ r)%string
    end.
Proof.
  induction x as [|c x IH]; simpl.
  - destruct (PyStr.rstrip_by p y); reflexivity.
  - rewrite IH. destruct (PyStr.rstrip_by p y); [reflexivity|].
    destruct x; reflexivity.
Qed.

Lemma rstrip_by_all (p : ascii -> bool) (s : string) :
  all_chars p s = true -> PyStr.rstrip_by p s = EmptyString.
Proof.
  induction s as [|c s IH]; simpl; [reflexivity|].
  intros H. apply andb_true_iff in H as [Hc Hs]. rewrite (IH Hs), Hc. reflexivity.
Qed.

Lemma rstrip_by_none (p : ascii -> bool) (s : string) :
  all_chars (fun c => negb (p c)) s = true -> PyStr.rstrip_by p s = s.
Proof.
  induction s as [|c s IH]; simpl; [reflexivity|].
  intros H. apply andb_true_iff in H as [Hc Hs]. rewrite (IH Hs).
  apply negb_true_iff in Hc. rewrite Hc. destruct s; reflexivity.
Qed.

Lemma lstrip_by_all_app (p : ascii -> bool) (ws x : string) :
  all_chars p ws = true ->
  PyStr.lstrip_by p (ws ++ x)%string = PyStr.lstrip_by p x.
Proof.
  induction ws as [|c ws IH]; simpl; [reflexivity|].
  intros H. apply andb_true_iff in H as [Hc Hs]. rewrite Hc. exact (IH Hs).
Qed.

(** [_strip_trailing_semicolon] is three strippings from the right of the
    statement less its leading whitespace. *)
Lemma strip_trailing_semicolon_unfold (query : string) :
  _strip_trailing_semicolon query
  = PyStr.rstrip_by PyStr.isspace
      (PyStr.rstrip_by (Ascii.eqb ";")
         (PyStr.rstrip_by PyStr.isspace (PyStr.lstrip_by PyStr.isspace query))).
Proof.
  unfold _strip_trailing_semicolon, PyStr.strip, PyStr.rstrip_char.
  rewrite (clean_lstrip
             (PyStr.rstrip_by (Ascii.eqb ";")
                (PyStr.rstrip_by PyStr.isspace
                   (PyStr.lstrip_by PyStr.isspace query)))).
  - reflexivity.
  - apply clean_rstrip_by, clean_rstrip_by, lstrip_clean.
Qed.

Lemma all_chars_impl (p q : ascii -> bool) (s : string) :
  (forall c, p c = true -> q c = true) ->
  all_chars p s = true -> all_chars q s = true.
Proof.
  intros Hpq. induction s as [|c s IH]; simpl; [reflexivity|].
  intros H. apply andb_true_iff in H as [Hc Hs].
  rewrite (Hpq c Hc), (IH Hs). reflexivity.
Qed.

Lemma semicolon_not_space (c : ascii) :
  Ascii.eqb ";" c = true -> negb (PyStr.isspace c) = true.
Proof. intros H. apply Ascii.eqb_eq in H. subst c. reflexivity. Qed.

Lemma lstrip_by_all (p : ascii -> bool) (ws : string) :
  all_chars p ws = true -> PyStr.lstrip_by p ws = EmptyString.
Proof.
  induction ws as [|c ws IH]; simpl; [reflexivity|].
  intros H. apply andb_true_iff in H as [Hc Hs]. rewrite Hc. exact (IH Hs).
Qed.

(** The three strippings from the right take a run of semicolons and the
    whitespace after it off a body that ends in neither. *)
Lemma three_rstrips_body (body semis ws : string) :
  all_chars (Ascii.eqb ";") semis = true ->
  all_chars PyStr.isspace ws = true ->
  PyStr.rstrip_by PyStr.isspace body = body ->
  PyStr.rstrip_by (Ascii.eqb ";") body = body ->
  PyStr.rstrip_by PyStr.isspace
    (PyStr.rstrip_by (Ascii.eqb ";")
       (PyStr.rstrip_by PyStr.isspace (body ++ semis ++ ws)%string))
  = body.
Proof.
  intros Hsemis Hws Hb1 Hb2.
  assert (Hinner : PyStr.rstrip_by PyStr.isspace (semis ++ ws)%string = semis).
  { rewrite rstrip_by_app, (rstrip_by_all _ _ Hws).
    apply rstrip_by_none.
    exact (all_chars_impl _ _ _ semicolon_not_space Hsemis). }
  rewrite rstrip_by_app, Hinner.
  destruct semis as [|c semis].
  - rewrite Hb1, Hb2. exact Hb1.
  - rewrite rstrip_by_app, (rstrip_by_all _ _ Hsemis), Hb2. exact Hb1.
Qed.

(** A statement that is whitespace, a body, a run of semicolons and
    whitespace, the body having no whitespace around it and no semicolon at
    its end, is stripped to the body. *)
Theorem strip_trailing_semicolon_body :
  forall (ws1 body semis ws2 : string),
    all_chars PyStr.isspace ws1 = true ->
    all_chars (Ascii.eqb ";") semis = true ->
    all_chars PyStr.isspace ws2 = true ->
    PyStr.strip body = body ->
    PyStr.rstrip_char ";" body = body ->
    _strip_trailing_semicolon (ws1 ++ body ++ semis ++ ws2)%string = body.
Proof.
  intros ws1 body semis ws2 Hws1 Hsemis Hws2 Hstrip Hsemi.
  assert (Hclean : clean body).
  { rewrite <- Hstrip. unfold PyStr.strip. apply clean_rstrip_by, lstrip_clean. }
  assert (Hr : PyStr.rstrip_by PyStr.isspace body = body).
  { unfold PyStr.strip in Hstrip. rewrite (clean_lstrip _ Hclean) in Hstrip.
    exact Hstrip. }
  rewrite strip_trailing_semicolon_unfold, (lstrip_by_all_app _ _ _ Hws1).
  assert (Hl : PyStr.lstrip_by PyStr.isspace (body ++ semis ++ ws2)%string
               = (body ++ semis ++ ws2)%string
               \/ (body = EmptyString /\ semis = EmptyString)).
  { destruct body as [|c body].
    - destruct semis as [|c semis]; [right; auto|left].
      simpl in Hsemis. apply andb_true_iff in Hsemis as [Hc _].
      apply semicolon_not_space, negb_true_iff in Hc. simpl. rewrite Hc.
      reflexivity.
    - left. simpl in Hclean. simpl. rewrite Hclean. reflexivity. }
  destruct Hl as [->|[-> ->]].
  - apply three_rstrips_body; assumption.
  - simpl. rewrite (lstrip_by_all _ _ Hws2). reflexivity.
Qed.

Lemma strip_trailing_semicolon_body_witness :
  _strip_trailing_semicolon
    ("  " ++ "SELECT a; b FROM t" ++ ";;;" ++ String PyStr.newline " ")%string
  = "SELECT a; b FROM t"%string.
Proof.
  exact (strip_trailing_semicolon_body "  " "SELECT a; b FROM t" ";;;"
           (String PyStr.newline " ") eq_refl eq_refl eq_refl eq_refl eq_refl).
Defined.

(** ** Rendering a result as a table *)

Lemma str_take_length (n : nat) (s : string) :
  (String.length (str_take n s) <= n)%nat.
Proof.
  revert s. induction n as [|n IH]; intros s; simpl; [lia|].
  destruct s as [|c s]; simpl; [lia|]. specialize (IH s). lia.
Qed.



Lemma dict_get_nth (d : dict) :
  NoDup (Dict.keys d) ->
  forall i k, nth_error (Dict.keys d) i = Some k ->
              Dict.get d k = nth_error (Dict.values d) i.
Proof.
  induction d as [|[k' v] d IH]; intros Hnd i k Hnth.
  - destruct i; discriminate.
  - simpl in Hnd. inversion Hnd as [|? ? Hfresh Hnd']; subst.
    destruct i as [|i]; simpl in *.
    + injection Hnth as ->. rewrite String.eqb_refl. reflexivity.
    + destruct (String.eqb k' k) eqn:Heq.
      * apply String.eqb_eq in Heq. subst k'. exfalso. apply Hfresh.
        eapply nth_error_In. exact Hnth.
      * apply IH; assumption.
Qed.

Lemma in_firstn {A} (n : nat) (l : list A) (x : A) :
  In x (firstn n l) -> In x l.
Proof.
  revert n. induction l as [|a l IH]; intros [|n]; simpl; try tauto.
  intros [->|H]; [auto | right; exact (IH n H)].
Qed.

Lemma nodup_firstn {A} (n : nat) (l : list A) : NoDup l -> NoDup (firstn n l).
Proof.
  intros Hnd. revert n. induction Hnd as [|a l Ha Hnd IH]; intros [|n]; simpl;
    try constructor.
  - intros Hin. apply Ha. eapply in_firstn. exact Hin.
  - apply IH.
Qed.

(** A row as the paginator decoded it, rendered under a declared column:
    the text of the cell at the column's position cut to the width, [None]
    for a cell without a value, and [NULL] only for a column beyond the
    cells the row was served with. *)
Theorem render_cell_of_decoded_row :
  forall (cols : list string) (raw : Row) (d : dict) (width i : nat)
         (col : string),
    NoDup cols ->
    decodes cols raw d ->
    nth_error cols i = Some col ->
    render_cell width d col
    = str_take width
        (match nth_error (row_cells raw) i with
         | Some cell => py_str (VarCharValue cell)
         | None => "NULL"%string
         end)
    /\ (String.length (render_cell width d col) <= width)%nat.
Proof.
  intros cols raw d width i col Hnd Hdec Hcol.
  split; [|apply str_take_length].
  destruct (decode_row_keys _ _ _ Hnd Hdec) as [Hk [Hv Hle]].
  unfold render_cell. f_equal.
  destruct (nth_error (row_cells raw) i) as [cell|] eqn:Hcell.
  - assert (Hi : (i < length (row_cells raw))%nat)
      by (apply nth_error_Some; congruence).
    assert (Hkey : nth_error (Dict.keys d) i = Some col).
    { rewrite Hk, nth_error_firstn.
      destruct (Nat.ltb_spec i (length (row_cells raw))); [exact Hcol | lia]. }
    rewrite (dict_get_nth d) with (i := i); [|rewrite Hk; apply nodup_firstn, Hnd
                                              |exact Hkey].
    rewrite Hv, nth_error_map, Hcell. reflexivity.
  - apply nth_error_None in Hcell. rewrite dict_get_none; [reflexivity|].
    rewrite Hk. intros Hin.
    apply (nodup_nth_fresh cols i col Hnd Hcol).
    apply In_nth_error in Hin as [j Hj].
    assert (j < length (firstn (length (row_cells raw)) cols))%nat
      by (apply nth_error_Some; congruence).
    rewrite length_firstn in *.
    rewrite nth_error_firstn in Hj.
    destruct (Nat.ltb_spec j (length (row_cells raw))); [|discriminate].
    apply nth_error_In with (n := j). rewrite nth_error_firstn.
    destruct (Nat.ltb_spec j i); [exact Hj | lia].
Qed.

Lemma render_cell_of_decoded_row_witness :
  NoDup ["id"; "city"]%string
  /\ decodes ["id"; "city"]%string (row_of [text_cell "2"; null_cell])
       [("id"%string, Some "2"%string); ("city"%string, None)]
  /\ render_cell 80 [("id"%string, Some "2"%string); ("city"%string, None)] "city"
     = "None"%string
  /\ render_cell 80 [("id"%string, Some "7"%string)] "city" = "NULL"%string.
Proof.
  assert (Hnd : NoDup ["id"; "city"]%string).
  { constructor; [simpl; intros [H|[]]; discriminate H|].
    constructor; [simpl; tauto | constructor]. }
  split; [exact Hnd|]. split; [reflexivity|]. split.
  - exact (proj1 (render_cell_of_decoded_row ["id"; "city"]%string
                    (row_of [text_cell "2"; null_cell]) _ 80 1 "city"
                    Hnd eq_refl eq_refl)).
  - exact (proj1 (render_cell_of_decoded_row ["id"; "city"]%string
                    (row_of [text_cell "7"]) _ 80 1 "city"
                    Hnd eq_refl eq_refl)).
Defined.

(** ** Columns read off a schema *)

(** Every column [_columns_from_schema] returns has a name that is not
    empty, does not start with [#] and has no whitespace around it, and a
    type with no whitespace around it; it returns no more columns than it
    was given rows. *)
Theorem columns_from_schema_clean :
  forall (describe_rows : list dict),
    Forall (fun column =>
              fst column <> EmptyString
              /\ starts_with_char "#" (fst column) = false
              /\ PyStr.strip (fst column) = fst column
              /\ PyStr.strip (snd column) = snd column)
      (_columns_from_schema describe_rows)
    /\ (length (_columns_from_schema describe_rows) <= length describe_rows)%nat.
Proof.
  induction describe_rows as [|row later [IH1 IH2]]; simpl.
  - split; [constructor | lia].
  - destruct (negb (PyStr.truthy (stripped_field row "col_name"))
              || starts_with_char "#" (stripped_field row "col_name")) eqn:Hskip.
    + split; [exact IH1 | lia].
    + apply orb_false_iff in Hskip as [Hname Hhash].
      apply negb_false_iff in Hname. split; [|simpl; lia].
      constructor; [|exact IH1]. cbn [fst snd]. repeat split.
      * intros Heq. rewrite Heq in Hname. discriminate.
      * exact Hhash.
      * apply strip_idempotent.
      * apply strip_idempotent.
Qed.

(** ** The tool layer never raises *)

(** The tools that list and describe tables turn every exception of the
    client into a text: they never raise, and when the client raises [e]
    they return their failure prefix followed by [str(e)], in the state
    the client left. *)
Theorem tools_never_raise :
  forall (str_exn : exn -> string) (athena : AthenaClient) (w : World),
    (forall db e, fst (Server.list_tables str_exn athena db w) <> Raise e)
    /\ (forall table db e,
           fst (Server.describe_table str_exn athena table db w) <> Raise e)
    /\ (forall db e w',
           list_tables athena (Some db) w = (Raise e, w') ->
           Server.list_tables str_exn athena db w
           = (Return ("Failed to list tables: " ++ str_exn e)%string, w'))
    /\ (forall table db e w',
           describe_table athena table (Some db) w = (Raise e, w') ->
           Server.describe_table str_exn athena table db w
           = (Return ("Failed to describe table: " ++ str_exn e)%string, w')).
Proof.
  intros str_exn athena w. repeat split.
  - intros db e. unfold Server.list_tables, try_except.
    match goal with |- context [match ?m with _ => _ end] =>
      destruct m as [[a|e'|] w1] end; simpl; discriminate.
  - intros table db e. unfold Server.describe_table, try_except.
    match goal with |- context [match ?m with _ => _ end] =>
      destruct m as [[a|e'|] w1] end; simpl; discriminate.
  - intros db e w' Hrun. unfold Server.list_tables, try_except, bind,
      athena_list_tables. rewrite Hrun. reflexivity.
  - intros table db e w' Hrun. unfold Server.describe_table, try_except, bind,
      athena_describe_table. rewrite Hrun. reflexivity.
Qed.

Lemma tools_never_raise_witness :
  exists w',
    list_tables demo_client (Some "d11_stitch"%string) refused_world
    = (Raise (ServiceError "AccessDeniedException"), w')
    /\ Server.list_tables demo_str_exn demo_client "d11_stitch" refused_world
       = (Return "Failed to list tables: AccessDeniedException"%string, w').
Proof.
  eexists. split; [vm_compute; reflexivity|].
  exact (proj1 (proj2 (proj2
           (tools_never_raise demo_str_exn demo_client refused_world)))
           "d11_stitch"%string _ _ eq_refl).
Defined.

(** ** The DDL text of a result with null cells *)

Lemma ddl_lines_cell_rows (c : string) (cells : list pyvalue) (lines : list string) :
  ddl_lines (Some c) (map (fun v => [(c, v)]) cells) lines
  = lines ++ map py_str cells.
Proof.
  revert lines. induction cells as [|v cells IH]; intros lines.
  - simpl. now rewrite app_nil_r.
  - cbn [map ddl_lines].
    assert (Hline : match col_value (Some c) [(c, v)] with
                    | Some text => text
                    | None => py_str v
                    end = py_str v).
    { unfold col_value, Dict.get_or_none. simpl. rewrite String.eqb_refl.
      destruct (PyStr.truthy c); [|reflexivity]. destruct v; reflexivity. }
    destruct (col_value (Some c) [(c, v)]) as [text|];
      [rewrite Hline|]; rewrite IH, <- app_assoc; reflexivity.
Qed.

(** On a one-column result [show_create_table_fq] makes a line of every
    row, and a row whose cell has no value gives the line [None]: the text
    returned is the newline-join of [str] of the cells, trailing whitespace
    trimmed. *)
Theorem show_create_table_null_cells :
  forall (self : AthenaClient) (full_table_name : string) (w w1 : World)
         (result : QueryResult) (c : string) (cells : list pyvalue),
    execute_query self
      ("SHOW CREATE TABLE " ++ qualify self full_table_name)%string
      (Some 1000) false w = (Return result, w1) ->
    columns result = [c] ->
    rows result = map (fun v => [(c, v)]) cells ->
    show_create_table_fq self full_table_name w
    = (Return (PyStr.rstrip (PyStr.join PyStr.nl (map py_str cells))), w1).
Proof.
  intros self name w w1 result c cells Hrun Hcols Hrows.
  unfold show_create_table_fq, bind. rewrite Hrun, Hrows, Hcols.
  destruct cells as [|v cells]; [reflexivity|].
  cbn [map hd_error].
  change ([(c, v)] :: map (fun v0 => [(c, v0)]) cells)
    with (map (fun v0 : pyvalue => [(c, v0)]) (v :: cells)).
  rewrite ddl_lines_cell_rows. reflexivity.
Qed.

Lemma show_create_table_null_cells_witness :
  exists result w1,
    execute_query demo_client
      ("SHOW CREATE TABLE " ++ qualify demo_client "t")%string
      (Some 1000) false ddl_gap_world = (Return result, w1)
    /\ columns result = ["createtab_stmt"%string]
    /\ show_create_table_fq demo_client "t" ddl_gap_world
       = (Return ("CREATE TABLE t (" ++ PyStr.nl ++ "None" ++ PyStr.nl ++ ")")%string,
          w1).
Proof.
  eexists; eexists. split; [vm_compute; reflexivity|]. split; [reflexivity|].
  refine (show_create_table_null_cells demo_client "t" ddl_gap_world _ _
            "createtab_stmt"%string
            [Some "CREATE TABLE t ("; None; Some ")"]%string _ _ _).
  - vm_compute. reflexivity.
  - reflexivity.
  - reflexivity.
Defined.
